(** * Ember-REST 0.1.1: the request adapter, resources and resource controllers

    A shallow embedding of [src/ember-rest.js].  JavaScript values live in a
    store of arrays and plain objects addressed by location, so that two
    properties holding the same array are seen to share it.  A resource is a
    record: the configuration of its type, its properties (a finite map from
    names to values) and the calls that have changed it.  Requests are
    recorded in a log; what the transport answers is an argument of the
    continuation that the source attaches with [then].  Code that may raise
    returns a [completion]. *)

From stdpp Require Import base option list gmap strings pretty.
From Stdlib Require Import ZArith Lia Ascii.

Local Open Scope string_scope.
Local Open Scope list_scope.
Local Open Scope Z_scope.

(** ** JavaScript values *)

Abbreviation loc := nat (only parsing).

(** Numbers are the integers that JavaScript holds exactly, those of at
    most 2^53 - 1 in size (see [safe_integer]); fractions and larger numbers
    are not represented.  [VFun] is a function value, known by its name
    only; [VError] is an exception object of the host, known by its
    constructor. *)
Inductive value :=
| VUndefined
| VNull
| VBool (b : bool)
| VNum (n : Z)
| VStr (s : string)
| VFun (name : string)
| VError (name : string)
| VRef (l : loc).

Global Instance value_eq_dec : EqDecision value.
Proof. solve_decision. Defined.

(** A plain object keeps its own enumerable keys in the order [for ... in]
    visits them.  An array has its elements and, as any object, may carry
    named properties besides. *)
Inductive cell :=
| CObj (props : list (string * value))
| CArr (items : list value) (named : list (string * value)).

Abbreviation heap := (list cell) (only parsing).

Definition alloc (h : heap) (c : cell) : loc * heap := (List.length h, h ++ [c]).

(** Reading and writing a key of an object's property list.  A new key goes
    to the end (that [for ... in] visits keys that are array indices first
    is not represented). *)
Fixpoint obj_find (props : list (string * value)) (k : string) : option value :=
  match props with
  | [] => None
  | (k', v) :: rest => if decide (k' = k) then Some v else obj_find rest k
  end.

Definition obj_get (props : list (string * value)) (k : string) : value :=
  default VUndefined (obj_find props k).

Fixpoint obj_set (props : list (string * value)) (k : string) (v : value)
  : list (string * value) :=
  match props with
  | [] => [(k, v)]
  | (k', v') :: rest =>
      if decide (k' = k) then (k, v) :: rest else (k', v') :: obj_set rest k v
  end.

Definition nat_key (i : nat) : string := pretty i.

(** [indexed 0 [a; b]] is [[("0", a); ("1", b)]]. *)
Fixpoint indexed (i : nat) (items : list value) : list (string * value) :=
  match items with
  | [] => []
  | v :: rest => (nat_key i, v) :: indexed (S i) rest
  end.

Fixpoint chars (s : string) : list value :=
  match s with
  | EmptyString => []
  | String c rest => VStr (String c EmptyString) :: chars rest
  end.

(** [typeof v] *)
Definition typeof (v : value) : string :=
  match v with
  | VUndefined => "undefined"
  | VNull => "object"
  | VBool _ => "boolean"
  | VNum _ => "number"
  | VStr _ => "string"
  | VFun _ => "function"
  | VError _ => "object"
  | VRef _ => "object"
  end.

(** The test of [if (v)], [!v] and [a || b]. *)
Definition truthy (v : value) : bool :=
  match v with
  | VUndefined | VNull => false
  | VBool b => b
  | VNum n => negb (n =? 0)
  | VStr s => negb (bool_decide (s = ""))
  | VFun _ | VError _ | VRef _ => true
  end.

(** [v[k]] for a value other than [null] and [undefined]: an element, the
    [length], or a named property. *)
Definition member (h : heap) (v : value) (k : string) : value :=
  match v with
  | VRef l =>
      match h !! l with
      | Some (CObj props) => obj_get props k
      | Some (CArr items named) =>
          match obj_find (indexed 0 items) k with
          | Some v => v
          | None =>
              if decide (k = "length") then VNum (Z.of_nat (List.length items))
              else obj_get named k
          end
      | None => VUndefined
      end
  | VStr s =>
      match obj_find (indexed 0 (chars s)) k with
      | Some v => v
      | None =>
          if decide (k = "length") then VNum (Z.of_nat (String.length s))
          else VUndefined
      end
  | _ => VUndefined
  end.

(** The pairs visited by [for (var k in v) if (v.hasOwnProperty(k)) ...]. *)
Definition own_props (h : heap) (v : value) : list (string * value) :=
  match v with
  | VRef l =>
      match h !! l with
      | Some (CObj props) => props
      | Some (CArr items named) => indexed 0 items ++ named
      | None => []
      end
  | VStr s => indexed 0 (chars s)
  | _ => []
  end.

(** The integers JavaScript holds exactly, which it prints in decimal. *)
Definition safe_integer (n : Z) : Prop := Z.abs n <= 9007199254740991.

(** [String(v)], as string concatenation applies it.  A number is printed
    in decimal, as JavaScript prints a [safe_integer].  The elements of an
    array are joined with commas, [null] and [undefined] elements giving the
    empty text; the recursion is bounded by the size of the store.  The text
    of a function or of an exception is the host's and is represented by the
    name. *)
Fixpoint to_string (fuel : nat) (h : heap) (v : value) : string :=
  match v with
  | VUndefined => "undefined"
  | VNull => "null"
  | VBool b => if b then "true" else "false"
  | VNum n => pretty n
  | VStr s => s
  | VFun name => name
  | VError name => name
  | VRef l =>
      match h !! l with
      | Some (CObj _) => "[object Object]"
      | Some (CArr items _) =>
          match fuel with
          | O => ""
          | S fuel' =>
              String.concat ","
                (map (fun x => match x with
                               | VUndefined | VNull => ""
                               | _ => to_string fuel' h x
                               end) items)
          end
      | None => ""
      end
  end.

Definition ToString (h : heap) (v : value) : string := to_string (List.length h) h v.

(** The outcome of a piece of code that may raise an exception. *)
Inductive completion (A : Type) :=
| Normal (a : A)
| Throw (e : value).
Arguments Normal {A} a.
Arguments Throw {A} e.

Definition TypeError : value := VError "TypeError".

(** [v[k] = x] for a name [k] that is not an array index.  On [null] and
    [undefined] this raises; on the other primitives the write is dropped
    (the file is not in strict mode). *)
Definition set_prop (h : heap) (v : value) (k : string) (x : value) : completion heap :=
  match v with
  | VUndefined | VNull => Throw TypeError
  | VRef l =>
      match h !! l with
      | Some (CObj props) => Normal (<[l := CObj (obj_set props k x)]> h)
      | Some (CArr items named) => Normal (<[l := CArr items (obj_set named k x)]> h)
      | None => Normal h
      end
  | _ => Normal h
  end.

(** ** What the code uses of Ember, jQuery and the host *)

(** [Ember.isNone] and [Ember.isEmpty]: [null], [undefined], and anything
    but a function whose [length] is [0] (the empty string, the empty
    array). *)
Definition isNone (v : value) : bool :=
  match v with
  | VUndefined | VNull => true
  | _ => false
  end.

Definition isEmpty (h : heap) (v : value) : bool :=
  isNone v
  || (bool_decide (member h v "length" = VNum 0)
      && negb (bool_decide (typeof v = "function"))).

(** [$.isArray(v)] *)
Definition isArray (h : heap) (v : value) : bool :=
  match v with
  | VRef l => match h !! l with Some (CArr _ _) => true | _ => false end
  | _ => false
  end.

(** [v.slice()] on an array: a new array with the same elements. *)
Definition slice (h : heap) (v : value) : value * heap :=
  match v with
  | VRef l =>
      match h !! l with
      | Some (CArr items _) => let (l', h') := alloc h (CArr items []) in (VRef l', h')
      | _ => (v, h)
      end
  | _ => (v, h)
  end.

Definition defined (kv : string * value) : bool :=
  negb (bool_decide (kv.2 = VUndefined)).

(** [$.extend({}, v)]: a new plain object with the enumerable properties
    of [v] whose value is not [undefined]. *)
Definition extend (h : heap) (v : value) : value * heap :=
  let (l', h') := alloc h (CObj (List.filter defined (own_props h v))) in (VRef l', h').

(** The host's [JSON] object.  [JSON_parse h s] is [None] when [JSON.parse]
    raises; otherwise it is the parsed value and the store holding it.
    [JSON_stringify h v] is the text [JSON.stringify] returns for an
    object, an array or [null], or the exception it raises, as it does on a
    value that contains itself. *)
Class JSON := {
  JSON_parse : heap -> string -> option (value * heap);
  JSON_stringify : heap -> value -> completion string
}.

(** *** Property names

    [Ember.get] and [Ember.set] read and write the property a name stands
    for only when the name is an ordinary one.  A name with a dot is a path
    through several objects, and [set] raises when the path leads nowhere;
    the empty name stands for the object itself.  The names below are those
    of the members a resource has besides its data: the four properties
    that configure a resource type and the methods of [Ember.Resource],
    which the code of this file reads from the instance; the members of
    [Ember.Object] and the hooks that [Ember.get] and [Ember.set] look
    for; the members of [Object.prototype]; and [then], which a promise
    reads from the value it is resolved with.  A resource keeps them on the
    instance with its data, so that assigning one of them changes what the
    code does next.  The embedding keeps the data of a resource apart from
    its configuration and methods; it follows the code for the names that
    are [data_name]s, and the properties below are stated for those. *)
Definition reserved : list string :=
  [ "resourceIdField"; "resourceUrl"; "resourceName"; "resourceProperties";
    "duplicateProperties"; "copy"; "serialize"; "serializeProperty";
    "deserialize"; "deserializeProperty"; "findResource"; "saveResource";
    "destroyResource"; "isNew"; "validate";
    "init"; "concatenatedProperties"; "mergedProperties"; "isDestroyed";
    "isDestroying"; "destroy"; "willDestroy"; "bind"; "frozenCopy";
    "get"; "getProperties"; "set"; "setProperties"; "getWithDefault";
    "beginPropertyChanges"; "endPropertyChanges"; "propertyWillChange";
    "propertyDidChange"; "notifyPropertyChange"; "addBeforeObserver";
    "addObserver"; "removeObserver"; "hasObserverFor"; "observersForKey";
    "incrementProperty"; "decrementProperty"; "toggleProperty"; "cacheFor";
    "unknownProperty"; "setUnknownProperty"; "sendEvent";
    "didDefineProperty"; "willWatchProperty"; "didUnwatchProperty";
    "constructor"; "hasOwnProperty"; "isPrototypeOf"; "propertyIsEnumerable";
    "toLocaleString"; "toString"; "valueOf"; "then" ].

Definition is_letter (c : ascii) : bool :=
  let n := nat_of_ascii c in
  ((65 <=? n) && (n <=? 90) || (97 <=? n) && (n <=? 122))%nat.

Definition is_digit (c : ascii) : bool :=
  let n := nat_of_ascii c in
  ((48 <=? n) && (n <=? 57))%nat.

(** Letters, digits and underscores only. *)
Fixpoint is_word (s : string) : bool :=
  match s with
  | EmptyString => true
  | String c rest =>
      (is_letter c || is_digit c || bool_decide (c = "_"%char)) && is_word rest
  end.

(** An ordinary property name: a word that begins with a letter (so that
    it is no path, not empty, and none of the names with a leading
    underscore that the code and Ember keep for themselves) and is not
    [reserved]. *)
Definition data_name (k : string) : bool :=
  match k with
  | EmptyString => false
  | String c _ => is_letter c && is_word k && negb (bool_decide (k ∈ reserved))
  end.

(** ** The request descriptor, the transport and promises *)

Record params := {
  type : string;
  url : value;
  data : value;
  contentType : value;
  dataType : value
}.

(** What has gone out: the calls of [$.ajax] and of the hook
    [_postResourceRequest]. *)
Inductive event :=
| Ajax (p : params)
| PostResourceRequest (p : params).

Record world := {
  store : heap;
  sent : list event
}.

(** The object the error callback or a raised exception hands to [catch]:
    [err] is the object itself, the other fields are what reading
    [err.responseJSON], [err.status], [err.responseText] gives, and the
    result of [err.getAllResponseHeaders()] when that method exists. *)
Record failure := {
  err : value;
  responseJSON : value;
  status : value;
  getAllResponseHeaders : option string;
  responseText : string
}.

Inductive response :=
| Success (body : value)
| Failure (e : failure).

Inductive promise (A : Type) :=
| Resolved (a : A)
| Rejected (reason : value).
Arguments Resolved {A} a.
Arguments Rejected {A} reason.

(** [p.then(f)] for a handler that returns normally or raises. *)
Definition and_then {A B : Type} (p : promise A) (f : A -> completion B) : promise B :=
  match p with
  | Resolved a => match f a with Normal b => Resolved b | Throw e => Rejected e end
  | Rejected e => Rejected e
  end.

(** [headers.indexOf(s) !== -1] *)
Definition contains (headers s : string) : bool :=
  bool_decide (String.index 0 s headers <> None).

Definition set_contentType (p : params) (v : value) : params :=
  {| type := type p; url := url p; data := data p; contentType := v; dataType := dataType p |}.

Definition set_dataType (p : params) (v : value) : params :=
  {| type := type p; url := url p; data := data p; contentType := contentType p; dataType := v |}.

Definition set_url (p : params) (v : value) : params :=
  {| type := type p; url := v; data := data p; contentType := contentType p; dataType := dataType p |}.

Definition set_data (p : params) (v : value) : params :=
  {| type := type p; url := url p; data := v; contentType := contentType p; dataType := dataType p |}.

Module Ember.

(** [error.status = err.status; throw error], the exception of the
    assignment taking the place of [error] when it raises. *)
Definition throw_with_status (h : heap) (error st : value) : value * heap :=
  match set_prop h error "status" st with
  | Normal h' => (error, h')
  | Throw e => (e, h)
  end.

(** The handler given to [catch]: the reason the promise is rejected with,
    and the store it leaves. *)
Definition ajaxPromise_catch `{JSON} (h : heap) (e : failure) : value * heap :=
  if truthy (responseJSON e) then
    throw_with_status h (responseJSON e) (status e)
  else
    match getAllResponseHeaders e with
    | Some headers =>
        if contains headers "Content-Type: application/json" then
          match JSON_parse h (responseText e) with
          | Some (error, h') => throw_with_status h' error (status e)
          | None =>
              let (l, h') := alloc h (CObj []) in
              throw_with_status h' (VRef l) (status e)
          end
        else
          let (l, h') := alloc h (CObj []) in
          throw_with_status h' (VRef l) (status e)
    | None => (err e, h)
    end.

(** The part of [Ember.ajaxPromise] that runs at once: the defaults of the
    descriptor, the call of [$.ajax] and the call of [nativeAjaxMethod]. *)
Definition defaults (p : params) : params :=
  let p := if truthy (contentType p) then p else set_contentType p (VStr "application/json") in
  if truthy (dataType p) then p else set_dataType p (VStr "json").

Definition ajaxPromise (p : params) (nativeAjaxMethod : bool) (w : world) : world :=
  let p := defaults p in
  {| store := store w;
     sent := sent w ++ Ajax p :: (if nativeAjaxMethod then [PostResourceRequest p] else []) |}.

(** How the promise settles once the transport has answered. *)
Definition ajaxPromise_settle `{JSON} (h : heap) (r : response) : promise value * heap :=
  match r with
  | Success body => (Resolved body, h)
  | Failure e => let (reason, h') := ajaxPromise_catch h e in (Rejected reason, h')
  end.

End Ember.

(** ** Ember.ResourceAdapter *)

(** What the mixin asks of the object it is mixed into. *)
Class ResourceAdapter (T : Type) := {
  this_resourceUrl : T -> heap -> value;
  this_prepareResourceRequest : T -> option (params -> params);
  this_postResourceRequest : T -> bool
}.

(** [if (this._prepareResourceRequest !== undefined)
      this._prepareResourceRequest(params)] *)
Definition adjust {T : Type} `{ResourceAdapter T} (this : T) (p : params) : params :=
  match this_prepareResourceRequest this with
  | Some prepare => prepare p
  | None => p
  end.

(** The first two statements of [_resourceRequest]: the URL and the
    [dataType] of the descriptor. *)
Definition addressed {T : Type} `{ResourceAdapter T}
    (this : T) (p : params) (h : heap) : params :=
  let p := set_url p (if truthy (url p) then url p else this_resourceUrl this h) in
  set_dataType p (VStr "json").

(** The descriptor as [_resourceRequest] completes it before the hook
    sees it; [JSON.stringify] may raise. *)
Definition complete `{JSON} {T : Type} `{ResourceAdapter T}
    (this : T) (p : params) (h : heap) : completion params :=
  let p := addressed this p h in
  if negb (truthy (contentType p))
     && (bool_decide (type p = "PUT") || bool_decide (type p = "POST"))
  then
    let p := set_contentType p (VStr "application/json") in
    if bool_decide (typeof (data p) = "object")
    then
      match JSON_stringify h (data p) with
      | Normal text => Normal (set_data p (VStr text))
      | Throw e => Throw e
      end
    else Normal p
  else Normal p.

(** [_resourceRequest]: the world once the request has gone out, or the
    exception raised before anything went out. *)
Definition _resourceRequest `{JSON} {T : Type} `{ResourceAdapter T}
    (this : T) (p : params) (w : world) : completion world :=
  match complete this p (store w) with
  | Throw e => Throw e
  | Normal p =>
      let p := adjust this p in
      Normal (Ember.ajaxPromise p (this_postResourceRequest this) w)
  end.

(** ** Ember.Resource *)

(** What the code asks of the change tracking of a resource: a call of
    [Ember.beginPropertyChanges], of [Ember.endPropertyChanges], which
    bracket the changes to be delivered together, or of [set]. *)
Inductive change :=
| BeginPropertyChanges
| EndPropertyChanges
| PropertySet (k : string) (v : value).

(** A mixin, as [PrototypeMixin.mixins] lists them. *)
Record mixin := {
  properties : option (gmap string value)
}.

Module Resource.

(** A resource type, as [Ember.Resource.extend({...})] defines it: the
    four properties that configure it, as an instance of the type reads
    them ([None] for one that is [undefined]), the hooks the adapter and
    [saveResource] look for, and in [prototype] what else an instance
    inherits, default values and methods of the type (as function values)
    under [data_name]s.  The hook [validate] reads the properties of the
    resource.  [mixins] is [PrototypeMixin.mixins], which only the
    controller consults, for a type on whose prototype it finds no
    [resourceUrl].  The methods of [Ember.Resource] themselves are the
    definitions below, and a call [this.m(...)] is a call of the definition
    [m]. *)
Record class := {
  resourceIdField : string;
  resourceUrl : option string;
  resourceName : option string;
  resourceProperties : option (list string);
  prototype : gmap string value;
  validate : option (gmap string value -> heap -> value);
  _prepareResourceRequest : option (params -> params);
  _postResourceRequest : bool;
  mixins : list mixin
}.

(** A resource: its type, the properties it holds or inherits under
    [data_name]s, the calls that have changed it, and whether it has been
    torn down. *)
Record t := {
  constructor : class;
  fields : gmap string value;
  changes : list change;
  isDestroyed : bool
}.

(** [type.create()] *)
Definition create (c : class) : t :=
  {| constructor := c; fields := prototype c; changes := []; isDestroyed := false |}.

(** [this.get(k)], and [this.k], for a [data_name] [k]. *)
Definition get (this : t) (k : string) : value :=
  default VUndefined (fields this !! k).

(** [this.set(k, v)] for a [data_name] [k], on a resource that has not
    been torn down. *)
Definition set (this : t) (k : string) (v : value) : t :=
  {| constructor := constructor this;
     fields := <[k := v]> (fields this);
     changes := changes this ++ [PropertySet k v];
     isDestroyed := isDestroyed this |}.

Definition notify (this : t) (c : change) : t :=
  {| constructor := constructor this;
     fields := fields this;
     changes := changes this ++ [c];
     isDestroyed := isDestroyed this |}.

(** [this.destroy()], Ember's teardown of the object. *)
Definition destroy (this : t) : t :=
  {| constructor := constructor this;
     fields := fields this;
     changes := changes this;
     isDestroyed := true |}.

Definition opt_value (o : option string) : value :=
  match o with
  | Some s => VStr s
  | None => VUndefined
  end.

(** One round of the loop of [duplicateProperties]. *)
Definition duplicateProperty (source : t) (acc : t * heap) (prop : string) : t * heap :=
  let (this, h) := acc in
  let propVal := get source prop in
  let (propVal, h) :=
    if isArray h propVal then slice h propVal
    else if negb (bool_decide (propVal = VNull)) && bool_decide (typeof propVal = "object")
         then extend h propVal
         else (propVal, h) in
  (set this prop propVal, h).

Definition duplicateProperties (this source : t) (props : option (list string)) (h : heap)
  : completion (t * heap) :=
  let this := notify this BeginPropertyChanges in
  let props := match props with Some _ => props | None => resourceProperties (constructor this) end in
  match props with
  | None => Throw TypeError
  | Some props =>
      let (this, h) := fold_left (duplicateProperty source) props (this, h) in
      Normal (notify this EndPropertyChanges, h)
  end.

Definition copy (this : t) (h : heap) : completion (t * heap) :=
  let c := create (constructor this) in
  match duplicateProperties c this None h with
  | Throw e => Throw e
  | Normal (c, h) =>
      let idField := resourceIdField (constructor this) in
      Normal (set c idField (get this idField), h)
  end.

Definition serializeProperty (this : t) (prop : string) : value :=
  get this prop.

(** One round of the loop of [serialize]:
    [ret[name][prop] = this.serializeProperty(prop)]. *)
Definition serialize_step (this : t) (ret : value) (name : string)
    (acc : completion heap) (prop : string) : completion heap :=
  match acc with
  | Throw e => Throw e
  | Normal h => set_prop h (member h ret name) prop (serializeProperty this prop)
  end.

Definition serialize (this : t) (h : heap) : completion (value * heap) :=
  let name := ToString h (opt_value (resourceName (constructor this))) in
  let (l, h) := alloc h (CObj []) in
  let ret := VRef l in
  let (l', h) := alloc h (CObj []) in
  match set_prop h ret name (VRef l') with
  | Throw e => Throw e
  | Normal h =>
      match resourceProperties (constructor this) with
      | None => Throw TypeError
      | Some props =>
          match fold_left (serialize_step this ret name) props (Normal h) with
          | Throw e => Throw e
          | Normal h => Normal (ret, h)
          end
      end
  end.

Definition deserializeProperty (this : t) (prop : string) (v : value) : t :=
  if negb (bool_decide (typeof (get this "prop") = "function"))
  then set this prop v
  else this.

(** [deserialize]: the resource after the call, and the exception when the
    call raises.  [json.hasOwnProperty(prop)] calls the method of
    [Object.prototype] unless [json] has a property of its own under that
    name; one that is no function makes the first round raise, once the
    batch of changes has been opened.  A function found there is called in
    its place; it is taken to answer as the method it replaces. *)
Definition deserialize (this : t) (h : heap) (json : value) : t * option value :=
  let this := notify this BeginPropertyChanges in
  let props := own_props h json in
  match obj_find props "hasOwnProperty" with
  | Some v =>
      if bool_decide (typeof v = "function")
      then
        let this := fold_left (fun this kv => deserializeProperty this kv.1 kv.2)
                      props this in
        (notify this EndPropertyChanges, None)
      else (this, Some TypeError)
  | None =>
      let this := fold_left (fun this kv => deserializeProperty this kv.1 kv.2)
                    props this in
      (notify this EndPropertyChanges, None)
  end.

(** A call that returns [this]: the completion of the code around it. *)
Definition returned (x : t * option value) : completion t :=
  match x.2 with
  | None => Normal x.1
  | Some e => Throw e
  end.

Definition _resourceId (this : t) : value :=
  get this (resourceIdField (constructor this)).

Definition isNew (this : t) (h : heap) : bool :=
  isEmpty h (_resourceId this).

Definition _resourceUrl (this : t) (h : heap) : value :=
  let url := opt_value (resourceUrl (constructor this)) in
  let id := _resourceId this in
  if negb (isEmpty h id)
  then VStr (ToString h url ++ ("/" ++ ToString h id))%string
  else url.

Global Instance adapter : ResourceAdapter t := {|
  this_resourceUrl := _resourceUrl;
  this_prepareResourceRequest this := _prepareResourceRequest (constructor this);
  this_postResourceRequest this := _postResourceRequest (constructor this)
|}.

(** The descriptor [{type: ..., data: ...}] an operation starts from. *)
Definition descriptor (method : string) (body : value) : params :=
  {| type := method; url := VUndefined; data := body;
     contentType := VUndefined; dataType := VUndefined |}.

(** The promise an operation hands back at once: waiting for the
    transport, or already rejected. *)
Inductive started :=
| Pending
| RejectedAtOnce (error : value).


Definition findResource_then (self : t) (h : heap) (json : value) : t * option value :=
  deserialize self h json.

(** [saveResource]: validation, the request, and the handler given to
    [then].  The handler runs on the resource and the store as they are
    when the answer arrives. *)
Definition saveResource `{JSON} (this : t) (w : world) : completion (started * world) :=
  let error :=
    match validate (constructor this) with
    | Some validate => validate (fields this) (store w)
    | None => VUndefined
    end in
  if truthy error then Normal (RejectedAtOnce error, w)
  else
    let method := if isNew this (store w) then "POST" else "PUT" in
    match serialize this (store w) with
    | Throw e => Throw e
    | Normal (body, h) =>
        match _resourceRequest this (descriptor method body)
                {| store := h; sent := sent w |} with
        | Throw e => Throw e
        | Normal w => Normal (Pending, w)
        end
    end.

Definition saveResource_then (self : t) (h : heap) (json : value) : t * option value :=
  if truthy json then deserialize self h json else (self, None).


(** The promises the three operations return, once the transport has
    answered [r]. *)
Definition findResource_settle `{JSON} (self : t) (h : heap) (r : response)
  : promise t * heap :=
  let (p, h) := Ember.ajaxPromise_settle h r in
  (and_then p (fun json => returned (findResource_then self h json)), h).

Definition saveResource_settle `{JSON} (self : t) (h : heap) (r : response)
  : promise t * heap :=
  let (p, h) := Ember.ajaxPromise_settle h r in
  (and_then p (fun json => returned (saveResource_then self h json)), h).

Definition destroyResource_settle `{JSON} (h : heap) (r : response)
  : promise value * heap :=
  Ember.ajaxPromise_settle h r.

End Resource.

(** ** Ember.ResourceController *)

Module ResourceController.

Record t := {
  resourceType : Resource.class;
  resourceUrl : option string;
  content : option (list Resource.t);
  _prepareResourceRequest : option (params -> params);
  _postResourceRequest : bool
}.

Definition set_content (this : t) (c : list Resource.t) : t :=
  {| resourceType := resourceType this;
     resourceUrl := resourceUrl this;
     content := Some c;
     _prepareResourceRequest := _prepareResourceRequest this;
     _postResourceRequest := _postResourceRequest this |}.

(** [this.pushObject(resource)].  A controller has a content array from
    [init] on; without one the array proxy adds nothing (where Ember checks
    its assertions, the call fails one instead). *)
Definition pushObject (this : t) (resource : Resource.t) : completion t :=
  match content this with
  | Some c => Normal (set_content this (c ++ [resource]))
  | None => Normal this
  end.

Definition load (this : t) (h : heap) (json : value) : completion t :=
  match Resource.returned
          (Resource.deserialize (Resource.create (resourceType this)) h json) with
  | Throw e => Throw e
  | Normal resource => pushObject this resource
  end.

(** The number a string of decimal digits writes. *)
Fixpoint decimal (s : string) (acc : nat) : option nat :=
  match s with
  | EmptyString => Some acc
  | String c rest =>
      if is_digit c then decimal rest (10 * acc + (nat_of_ascii c - 48))%nat
      else None
  end.

(** The number of rounds of [for (var i = 0; i < n; i++)] for a bound
    [n]: a number, [true] (which [<] reads as 1), or a string of decimal
    digits, read as the number it writes; [undefined], [null], [false] and
    the empty string give none.  The other ways a string can write a number
    are not represented, nor is the conversion of an object: a list
    endpoint sends no such length. *)
Definition rounds (n : value) : nat :=
  match n with
  | VNum n => Z.to_nat n
  | VBool true => 1
  | VStr s => default 0%nat (decimal s 0)
  | _ => 0
  end.

Definition loadAll (this : t) (h : heap) (json : value) : completion t :=
  if isNone json then Throw TypeError
  else
    fold_left (fun acc i =>
                 match acc with
                 | Throw e => Throw e
                 | Normal this => load this h (member h json (nat_key i))
                 end)
              (seq 0 (rounds (member h json "length"))) (Normal this).

(** [clearAll(keepObjectsAlive)]: the controller afterwards, and the
    resources it has torn down. *)
Definition clearAll (this : t) (keepObjectsAlive : bool) : t * list Resource.t :=
  let destroyed :=
    if negb keepObjectsAlive then
      match content this with
      | Some c => map Resource.destroy c
      | None => []
      end
    else [] in
  (set_content this [], destroyed).

(** [Ember.ArrayController.create()]-time initialisation: [clearAll] is
    registered [on('init')]. *)
Definition init (this : t) : t := (clearAll this false).1.

(** The resource URL of the last mixin that defines one. *)
Fixpoint mixin_resourceUrl (ms : list mixin) : option value :=
  match ms with
  | [] => None
  | m :: rest =>
      match mixin_resourceUrl rest with
      | Some u => Some u
      | None =>
          match properties m with
          | Some props =>
              match props !! "resourceUrl" with
              | Some VUndefined | None => None
              | Some u => Some u
              end
          | None => None
          end
      end
  end.

Definition _resourceUrl (this : t) (h : heap) : value :=
  match resourceUrl this with
  | None =>
      let rt := resourceType this in
      match Resource.resourceUrl rt with
      | None =>
          match mixin_resourceUrl (Resource.mixins rt) with
          | Some u => u
          | None => Resource.opt_value (resourceUrl this)
          end
      | Some u => VStr u
      end
  | Some u => VStr u
  end.

Global Instance adapter : ResourceAdapter t := {|
  this_resourceUrl := _resourceUrl;
  this_prepareResourceRequest := _prepareResourceRequest;
  this_postResourceRequest := _postResourceRequest
|}.


Definition findAll_then (self : t) (h : heap) (json : value)
  : completion (t * option (list Resource.t) * list Resource.t) :=
  let (self, destroyed) := clearAll self false in
  match loadAll self h json with
  | Throw e => Throw e
  | Normal self => Normal (self, content self, destroyed)
  end.

(** The promise [findAll] returns, once the transport has answered [r]. *)
Definition findAll_settle `{JSON} (self : t) (h : heap) (r : response)
  : promise (t * option (list Resource.t) * list Resource.t) * heap :=
  let (p, h) := Ember.ajaxPromise_settle h r in
  (and_then p (findAll_then self h), h).

End ResourceController.

(** ** A host and a resource type for the examples *)

Module Sample.

Definition quote : string := String (Ascii.ascii_of_nat 34) EmptyString.

(** A property that [JSON.stringify] writes: one whose value is neither
    [undefined] nor a function. *)
Definition written (kv : string * value) : bool :=
  defined kv && negb (bool_decide (typeof kv.2 = "function")).

(** The text of a JSON value held in the store (no escaping of strings).
    A value nested deeper than [fuel] has no text: with as much fuel as the
    store has arrays and objects, that is a value that contains itself. *)
Fixpoint stringify (fuel : nat) (h : heap) (v : value) : option string :=
  match v with
  | VBool b => Some (if b then "true" else "false")
  | VNum n => Some (pretty n)
  | VStr s => Some (quote ++ s ++ quote)
  | VRef l =>
      match h !! l, fuel with
      | Some _, O => None
      | Some (CObj props), S fuel' =>
          texts ← mapM (fun kv : string * value =>
                          text ← stringify fuel' h kv.2;
                          Some (quote ++ kv.1 ++ quote ++ ":" ++ text))
                       (List.filter written props);
          Some ("{" ++ String.concat "," texts ++ "}")
      | Some (CArr items _), S fuel' =>
          texts ← mapM (stringify fuel' h) items;
          Some ("[" ++ String.concat "," texts ++ "]")
      | None, _ => Some "null"
      end
  | VError _ => Some "{}"
  | _ => Some "null"
  end%string.

(** The body [{"message":"bad"}]. *)
Definition bad_text : string :=
  ("{" ++ quote ++ "message" ++ quote ++ ":" ++ quote ++ "bad" ++ quote ++ "}")%string.

(** A parser that knows three texts: the body above, [null] and [[]]. *)
Definition parse (h : heap) (s : string) : option (value * heap) :=
  if decide (s = bad_text) then
    let (l, h') := alloc h (CObj [("message", VStr "bad")]) in Some (VRef l, h')
  else if decide (s = "null") then Some (VNull, h)
  else if decide (s = "[]") then
    let (l, h') := alloc h (CArr [] []) in Some (VRef l, h')
  else None.

Definition host : JSON :=
  {| JSON_parse := parse;
     JSON_stringify h v :=
       match stringify (List.length h) h v with
       | Some text => Normal text
       | None => Throw TypeError
       end |}.

(** A contact whose [tags] is an array that holds itself:
    [var tags = []; tags.push(tags)]. *)
Definition knot_store : heap := [CArr [VRef 0%nat] []].

(** [App.Contact = Ember.Resource.extend({resourceUrl: '/contacts',
    resourceName: 'contact', resourceProperties: ['first_name', 'tags'],
    fullName: function() {...}})] *)
Definition Contact : Resource.class :=
  {| Resource.resourceIdField := "id";
     Resource.resourceUrl := Some "/contacts";
     Resource.resourceName := Some "contact";
     Resource.resourceProperties := Some ["first_name"; "tags"];
     Resource.prototype := {["fullName" := VFun "fullName"]};
     Resource.validate := None;
     Resource._prepareResourceRequest := None;
     Resource._postResourceRequest := false;
     Resource.mixins := [] |}.

(** A resource type that has a method called [prop]. *)
Definition Guarded : Resource.class :=
  {| Resource.resourceIdField := "id";
     Resource.resourceUrl := Some "/guarded";
     Resource.resourceName := Some "guarded";
     Resource.resourceProperties := Some ["first_name"];
     Resource.prototype := {["prop" := VFun "prop"]};
     Resource.validate := None;
     Resource._prepareResourceRequest := None;
     Resource._postResourceRequest := false;
     Resource.mixins := [] |}.

Definition with_field (r : Resource.t) (k : string) (v : value) : Resource.t :=
  {| Resource.constructor := Resource.constructor r;
     Resource.fields := <[k := v]> (Resource.fields r);
     Resource.changes := Resource.changes r;
     Resource.isDestroyed := Resource.isDestroyed r |}.

(** A contact called Ada whose [tags] is the array at location 0, and the
    same contact once it has the id 7. *)
Definition ada : Resource.t :=
  with_field (with_field (Resource.create Contact) "first_name" (VStr "Ada"))
             "tags" (VRef 0%nat).

Definition ada7 : Resource.t := with_field ada "id" (VNum 7).

(** [tags] is [[["x"]]]: an array holding one array. *)
Definition ada_store : heap := [CArr [VRef 1%nat] []; CArr [VStr "x"] []].

Definition empty_world : world := {| store := ada_store; sent := [] |}.

(** A contact type whose [validate] asks for a first name. *)
Definition require_first_name (fields : gmap string value) (h : heap) : value :=
  if truthy (default VUndefined (fields !! "first_name")) then VUndefined
  else VStr "first_name is required".

Definition Checked : Resource.class :=
  {| Resource.resourceIdField := "id";
     Resource.resourceUrl := Some "/contacts";
     Resource.resourceName := Some "contact";
     Resource.resourceProperties := Some ["first_name"];
     Resource.prototype := ∅;
     Resource.validate := Some require_first_name;
     Resource._prepareResourceRequest := None;
     Resource._postResourceRequest := false;
     Resource.mixins := [] |}.

(** A failed response of status 422 with a JSON body that the transport
    has not parsed. *)
Definition unprocessable : failure :=
  {| err := VRef 0%nat;
     responseJSON := VUndefined;
     status := VNum 422;
     getAllResponseHeaders := Some "Content-Type: application/json";
     responseText := bad_text |}.

Definition unprocessable_store : heap :=
  [CObj [("status", VNum 422); ("responseText", VStr bad_text)]].

(** A controller of contacts that holds Ada, and a store with the list
    [[{first_name: "Bob"}, {first_name: "Cy"}]] at location 4. *)
Definition contacts : ResourceController.t :=
  {| ResourceController.resourceType := Contact;
     ResourceController.resourceUrl := None;
     ResourceController.content := Some [ada7];
     ResourceController._prepareResourceRequest := None;
     ResourceController._postResourceRequest := false |}.

Definition list_store : heap :=
  ada_store ++ [CObj [("first_name", VStr "Bob")];
                CObj [("first_name", VStr "Cy")];
                CArr [VRef 2%nat; VRef 3%nat] []].

End Sample.

(** ** The notions the properties are stated with *)

(** The states of an id the documentation calls empty or unset:
    [undefined], [null], the empty string, an array without elements and an
    object whose [length] is [0]. *)
Definition unset_or_empty (h : heap) (v : value) : Prop :=
  v = VUndefined ∨ v = VNull ∨ v = VStr "" ∨
  (∃ l named, v = VRef l ∧ h !! l = Some (CArr [] named)) ∨
  (∃ l props, v = VRef l ∧ h !! l = Some (CObj props) ∧ obj_get props "length" = VNum 0).

(** What one call of [_resourceRequest] adds to the log, for the
    descriptor [p] it has completed: the call of [$.ajax] on [p] as the hook
    [_prepareResourceRequest] and the defaults of [Ember.ajaxPromise] leave
    it, then the call of [_postResourceRequest] when that hook exists. *)
Definition outgoing {T : Type} `{ResourceAdapter T} (this : T) (p : params) : list event :=
  let q := Ember.defaults (adjust this p) in
  Ajax q :: (if this_postResourceRequest this then [PostResourceRequest q] else []).

(** The object [serialize] nests under the resource name, key by key. *)
Definition serialized (r : Resource.t) (props : list string) (inner : list (string * value))
  : list (string * value) :=
  fold_left (fun acc p => obj_set acc p (Resource.get r p)) props inner.


(** A resource passes validation when it has no [validate] hook or the hook
    returns a value that is not truthy. *)
Definition passes_validation (r : Resource.t) (h : heap) : Prop :=
  match Resource.validate (Resource.constructor r) with
  | Some hook => truthy (hook (Resource.fields r) h) = false
  | None => True
  end.

(** The resource has a method called [k]. *)
Definition has_method (r : Resource.t) (k : string) : Prop :=
  typeof (Resource.get r k) = "function".

(** Every name of the list is a [data_name]. *)
Definition data_names (ks : list string) : Prop :=
  Forall (fun k => data_name k = true) ks.

(** The resource holds nothing under a name that is not a [data_name], so
    that what the code and Ember read from it is what its type defines. *)
Definition tidy (r : Resource.t) : Prop :=
  map_Forall (fun k _ => data_name k = true) (Resource.fields r).

(** A value whose text [String] gives without calling into an object:
    [undefined], [null], a boolean, a number or a string. *)
Definition scalar (v : value) : Prop :=
  match v with
  | VUndefined | VNull | VBool _ | VNum _ | VStr _ => True
  | VFun _ | VError _ | VRef _ => False
  end.

(** A value that [slice] and [$.extend] copy as they are meant to: an
    array that has no property of its own called [slice], which would hide
    the method, and an object that has no key [__proto__], which [$.extend]
    does not copy as a key.  Any value that is neither is one. *)
Definition duplicable (h : heap) (v : value) : Prop :=
  match v with
  | VRef l =>
      match h !! l with
      | Some (CArr _ named) => obj_find named "slice" = None
      | Some (CObj props) => obj_find props "__proto__" = None
      | None => True
      end
  | _ => True
  end.

(** What [deserialize] is written for: a value whose keys are distinct
    [data_name]s and which holds no function under the name [prop].  An
    object parsed from JSON has distinct keys and holds no function; a
    number, a boolean, [null] and [undefined] have no keys. *)
Definition plain_object (h : heap) (json : value) : Prop :=
  data_names (own_props h json).*1 ∧
  NoDup (own_props h json).*1 ∧
  ∀ v, ("prop", v) ∈ own_props h json → typeof v ≠ "function".

(** The claim as the documentation has it: [deserialize], given what
    [serialize] returned, restores every declared property on a new
    instance. *)
Definition roundtrip (r : Resource.t) (h : heap) : Prop :=
  ∀ props ret h',
    Resource.resourceProperties (Resource.constructor r) = Some props →
    Resource.serialize r h = Normal (ret, h') →
    ∀ p, p ∈ props →
      Resource.get
        (Resource.deserialize (Resource.create (Resource.constructor r)) h' ret).1 p
      = Resource.get r p.

(** The second half of the claim on validation as the documentation has
    it: a resource that passes validation sends its request. *)
Definition request_proceeds `{JSON} (r : Resource.t) (w : world) : Prop :=
  passes_validation r (store w) →
  ∃ w' p, Resource.saveResource r w = Normal (Resource.Pending, w') ∧
          sent w' = sent w ++ outgoing r p.

(** The claim on saving as the documentation has it: a resource that
    passes validation sends a POST or a PUT whose body is the JSON text of
    what [serialize] returns, and when the request succeeds with the body
    [json] the promise resolves with a resource. *)
Definition saves_and_reloads `{JSON} (r : Resource.t) (w : world)
    (h : heap) (json : value) : Prop :=
  passes_validation r (store w) →
  (∃ body h' text p,
     Resource.serialize r (store w) = Normal (body, h') ∧
     JSON_stringify h' body = Normal text ∧
     Resource.saveResource r w =
       Normal (Resource.Pending, {| store := h'; sent := sent w ++ outgoing r p |}) ∧
     type p = (if Resource.isNew r (store w) then "POST" else "PUT") ∧
     data p = VStr text) ∧
  (∃ self', Resource.saveResource_settle r h (Success json) = (Resolved self', h)).

(** The claim on [findAll] as the documentation has it: when the request
    succeeds with the array at [l], the promise resolves with a content of
    one resource per element. *)
Definition loads_each_element `{JSON} (ctl : ResourceController.t) (h : heap)
    (l : loc) : Prop :=
  ∀ items named, h !! l = Some (CArr items named) →
    ∃ ctl' loaded torn_down,
      ResourceController.findAll_settle ctl h (Success (VRef l))
      = (Resolved (ctl', Some loaded, torn_down), h) ∧
      List.length loaded = List.length items.

(** A response body with a key that hides the method [hasOwnProperty]:
    [{hasOwnProperty: 1}], and the list [[{hasOwnProperty: 1}]]. *)
Definition shadowing_store : heap :=
  [CObj [("hasOwnProperty", VNum 1)]; CArr [VRef 0%nat] []].

(** An object or array once [status] has been written on it. *)
Definition attach_status (c : cell) (st : value) : cell :=
  match c with
  | CObj props => CObj (obj_set props "status" st)
  | CArr items named => CArr items (obj_set named "status" st)
  end.

(** The response has no structured body: the transport has parsed none and
    the headers, if any, announce no JSON. *)
Definition unstructured (e : failure) : Prop :=
  truthy (responseJSON e) = false ∧
  ∀ headers, getAllResponseHeaders e = Some headers →
             contains headers "Content-Type: application/json" = false.

(** The third case of the claim as the documentation has it: without a
    structured body the error is passed through unchanged. *)
Definition passes_unstructured_through `{JSON} (h : heap) (e : failure) : Prop :=
  unstructured e → Ember.ajaxPromise_settle h (Failure e) = (Rejected (err e), h).

(** [l] can be reached from the value [v]: it is the array or object [v]
    refers to, or can be reached from one of its elements or properties. *)
Inductive reachable (h : list cell) : value → nat → Prop :=
| reach_self l : reachable h (VRef l) l
| reach_item l items named v l' :
    h !! l = Some (CArr items named) → v ∈ items → reachable h v l' →
    reachable h (VRef l) l'
| reach_named l items named k v l' :
    h !! l = Some (CArr items named) → (k, v) ∈ named → reachable h v l' →
    reachable h (VRef l) l'
| reach_prop l props k v l' :
    h !! l = Some (CObj props) → (k, v) ∈ props → reachable h v l' →
    reachable h (VRef l) l'.

(** The claim as the documentation has it: a declared property of the copy
    shares no array and no object with the same property of the source. *)
Definition copy_is_deep (r : Resource.t) (h : heap) : Prop :=
  ∀ c h' props p l,
    Resource.resourceProperties (Resource.constructor r) = Some props →
    Resource.copy r h = Normal (c, h') →
    p ∈ props →
    reachable h' (Resource.get c p) l → ¬ reachable h' (Resource.get r p) l.

(** [a[i] = x] for an element the array has. *)
Definition set_item (h : heap) (a : value) (i : nat) (x : value) : heap :=
  match a with
  | VRef l =>
      match h !! l with
      | Some (CArr items named) => <[l := CArr (<[i := x]> items) named]> h
      | _ => h
      end
  | _ => h
  end.

(** [v'], in the store [h'], duplicates [v] of the store [h] one level
    deep: for an array, a new array with the same elements; for a plain
    object, a new object with the same properties, those that are
    [undefined] left out; and [v] itself when it is neither.  Nothing is
    said of an exception object or of a location the store does not hold. *)
Definition duplicates (h h' : heap) (v v' : value) : Prop :=
  match v with
  | VRef l =>
      match h !! l with
      | Some (CArr items _) =>
          ∃ l', v' = VRef l' ∧ (List.length h ≤ l')%nat ∧ h' !! l' = Some (CArr items [])
      | Some (CObj props) =>
          ∃ l', v' = VRef l' ∧ (List.length h ≤ l')%nat ∧
                h' !! l' = Some (CObj (List.filter defined props))
      | None => True
      end
  | VError _ => True
  | _ => v' = v
  end.

(** The mixin [m] defines the resource URL [u]. *)
Definition defines_resourceUrl (m : mixin) (u : value) : Prop :=
  ∃ props, properties m = Some props ∧ props !! "resourceUrl" = Some u ∧ u ≠ VUndefined.

(** A response of status 422 whose JSON body is [null]. *)
Definition null_body : failure :=
  {| err := VRef 0%nat;
     responseJSON := VUndefined;
     status := VNum 422;
     getAllResponseHeaders := Some "Content-Type: application/json";
     responseText := "null" |}.

(** A response of status 409 whose body the transport has parsed: the
    object at location 0, [{status: "conflict", message: "taken"}]. *)
Definition conflict : failure :=
  {| err := VRef 1%nat;
     responseJSON := VRef 0%nat;
     status := VNum 409;
     getAllResponseHeaders := Some "Content-Type: application/json";
     responseText := "" |}.

Definition conflict_store : heap :=
  [CObj [("status", VStr "conflict"); ("message", VStr "taken")]; CObj []].

(** A contact type without a URL of its own, whose mixins define two. *)
Definition Mixed : Resource.class :=
  {| Resource.resourceIdField := "id";
     Resource.resourceUrl := None;
     Resource.resourceName := Some "contact";
     Resource.resourceProperties := Some ["first_name"];
     Resource.prototype := ∅;
     Resource.validate := None;
     Resource._prepareResourceRequest := None;
     Resource._postResourceRequest := false;
     Resource.mixins :=
       [ {| properties := Some {["resourceUrl" := VStr "/people"]} |};
         {| properties := Some {["resourceUrl" := VStr "/contacts"]} |};
         {| properties := None |} ] |}.

Definition mixed_contacts : ResourceController.t :=
  {| ResourceController.resourceType := Mixed;
     ResourceController.resourceUrl := None;
     ResourceController.content := None;
     ResourceController._prepareResourceRequest := None;
     ResourceController._postResourceRequest := false |}.

(** A contact type that declares no [resourceProperties]. *)
Definition ReadOnly : Resource.class :=
  {| Resource.resourceIdField := "id";
     Resource.resourceUrl := Some "/contacts";
     Resource.resourceName := None;
     Resource.resourceProperties := None;
     Resource.prototype := ∅;
     Resource.validate := None;
     Resource._prepareResourceRequest := None;
     Resource._postResourceRequest := false;
     Resource.mixins := [] |}.

(** ** Properties *)

(** *** Array indices as keys *)

Lemma append_String (c : ascii) (s t : string) :
  (String c s ++ t)%string = String c (s ++ t)%string.
Proof. reflexivity. Qed.

Lemma append_empty (t : string) : ("" ++ t)%string = t.
Proof. reflexivity. Qed.

Lemma pretty_N_go_suffix (x : N) (s : string) :
  ∃ pre, pretty_N_go x s = (pre ++ s)%string.
Proof.
  revert s. induction (N.lt_wf_0 x) as [x _ IH]; intros s.
  destruct (decide (x = 0%N)) as [->|Hx].
  - exists "". by rewrite pretty_N_go_0.
  - rewrite pretty_N_go_step by lia.
    destruct (IH (x `div` 10)%N) with (s := String (pretty_N_char (x `mod` 10)) s)
      as [pre ->].
    { apply N.div_lt; lia. }
    exists (pre ++ String (pretty_N_char (x `mod` 10)) "")%string.
    clear. induction pre as [|c pre IHpre]; [done|].
    rewrite !append_String. by f_equal.
Qed.

Lemma digit_last_of_length (pre : string) (d : ascii) :
  (pre ++ String d "")%string = "length" → d = "h"%char.
Proof.
  intros Hs.
  do 5 (destruct pre as [|? pre];
        [by rewrite append_empty in Hs|];
        rewrite append_String in Hs; injection Hs as _ Hs).
  destruct pre as [|? pre].
  - rewrite append_empty in Hs. by injection Hs.
  - rewrite append_String in Hs. injection Hs as _ Hs. by destruct pre.
Qed.

Lemma nat_key_not_length (i : nat) : nat_key i ≠ "length".
Proof.
  unfold nat_key, pretty, pretty_nat, pretty, pretty_N.
  destruct (decide (N.of_nat i = 0%N)) as [|Hi]; [done|].
  rewrite pretty_N_go_step by lia.
  destruct (pretty_N_go_suffix (N.of_nat i `div` 10)
              (String (pretty_N_char (N.of_nat i `mod` 10)) "")) as [pre ->].
  intros Hs. apply digit_last_of_length in Hs.
  unfold pretty_N_char in Hs. by repeat case_match.
Qed.

Lemma obj_find_indexed_length (s : nat) (items : list value) :
  obj_find (indexed s items) "length" = None.
Proof.
  revert s. induction items as [|v items IH]; intros s; simpl; [done|].
  rewrite decide_False by apply nat_key_not_length. apply IH.
Qed.

Lemma obj_find_indexed_above (s i : nat) (items : list value) :
  (i < s)%nat → obj_find (indexed s items) (nat_key i) = None.
Proof.
  revert s. induction items as [|v items IH]; intros s Hi; simpl; [done|].
  rewrite decide_False.
  - apply IH. lia.
  - intros Heq. apply (inj _) in Heq. lia.
Qed.

Lemma obj_find_indexed (s i : nat) (items : list value) :
  obj_find (indexed s items) (nat_key (s + i)) = items !! i.
Proof.
  revert s i. induction items as [|v items IH]; intros s i; simpl; [done|].
  destruct i as [|i].
  - rewrite Nat.add_0_r. by rewrite decide_True.
  - rewrite decide_False.
    + replace (s + S i)%nat with (S s + i)%nat by lia. apply IH.
    + intros Heq. apply (inj _) in Heq. lia.
Qed.

Lemma member_array_length (h : heap) (l : loc) (items : list value)
    (named : list (string * value)) :
  h !! l = Some (CArr items named) →
  member h (VRef l) "length" = VNum (Z.of_nat (List.length items)).
Proof. intros Hl. unfold member. by rewrite Hl, obj_find_indexed_length. Qed.

Lemma member_array_item (h : heap) (l : loc) (items : list value)
    (named : list (string * value)) (i : nat) (v : value) :
  h !! l = Some (CArr items named) → items !! i = Some v →
  member h (VRef l) (nat_key i) = v.
Proof.
  intros Hl Hi. unfold member. rewrite Hl.
  pose proof (obj_find_indexed 0 i items) as Hf. simpl in Hf.
  by rewrite Hf, Hi.
Qed.

Lemma member_string_length (h : heap) (s : string) :
  member h (VStr s) "length" = VNum (Z.of_nat (String.length s)).
Proof. unfold member. by rewrite obj_find_indexed_length. Qed.

Lemma isEmpty_spec (h : heap) (v : value) :
  isEmpty h v = true ↔ unset_or_empty h v.
Proof.
  unfold isEmpty, unset_or_empty.
  destruct v as [| |b|n|s|f|e|l].
  - split; [auto | done].
  - split; [auto | done].
  - split; [done | intros [?|[?|[?|[(?&?&?&?)|(?&?&?&?)]]]]; done].
  - split; [done | intros [?|[?|[?|[(?&?&?&?)|(?&?&?&?)]]]]; done].
  - rewrite member_string_length. destruct s as [|c s]; simpl.
    + split; [auto | done].
    + split; [done | intros [?|[?|[?|[(?&?&?&?)|(?&?&?&?)]]]]; done].
  - split; [done | intros [?|[?|[?|[(?&?&?&?)|(?&?&?&?)]]]]; done].
  - split; [done | intros [?|[?|[?|[(?&?&?&?)|(?&?&?&?)]]]]; done].
  - destruct (h !! l) as [[props|items named]|] eqn:Hl.
    + unfold member. rewrite Hl. simpl.
      rewrite andb_true_r, bool_decide_eq_true. split.
      * intros Hlen. right; right; right; right. eauto.
      * intros [?|[?|[?|[(l'&?&?&?)|(l'&props'&?&?&?)]]]]; by simplify_eq.
    + rewrite (member_array_length h l items named) by done. simpl.
      rewrite andb_true_r, bool_decide_eq_true. split.
      * intros [= Hlen]. destruct items; [|done].
        right; right; right; left. eauto.
      * intros [?|[?|[?|[(l'&?&?&?)|(l'&props'&?&?&?)]]]]; by simplify_eq.
    + unfold member. rewrite Hl. simpl. split; [done|].
      intros [?|[?|[?|[(l'&?&?&?)|(l'&props'&?&?&?)]]]]; by simplify_eq.
Qed.

(** C6.  A resource is new exactly when the value of its configured id
    field is unset or empty. *)
Theorem isNew_iff_id_unset_or_empty (r : Resource.t) (h : heap) :
  Resource.isNew r h = true ↔
  unset_or_empty h (Resource.get r (Resource.resourceIdField (Resource.constructor r))).
Proof. unfold Resource.isNew, Resource._resourceId. apply isEmpty_spec. Qed.

(** *** Requests *)


Lemma resourceRequest_raises `{JSON} {T : Type} `{ResourceAdapter T}
    (this : T) (p : params) (w : world) (e : value) :
  complete this p (store w) = Throw e → _resourceRequest this p w = Throw e.
Proof. intros Hq. unfold _resourceRequest. by rewrite Hq. Qed.

(** What [complete] does to a descriptor whose body is not turned into
    text, and to one whose body is. *)
Lemma complete_spec `{JSON} {T : Type} `{ResourceAdapter T}
    (this : T) (p : params) (h : heap) :
  let q := addressed this p h in
  if negb (truthy (contentType p))
     && (bool_decide (type p = "PUT") || bool_decide (type p = "POST"))
  then
    if bool_decide (typeof (data p) = "object")
    then complete this p h
         = match JSON_stringify h (data p) with
           | Normal text =>
               Normal (set_data (set_contentType q (VStr "application/json")) (VStr text))
           | Throw e => Throw e
           end
    else complete this p h = Normal (set_contentType q (VStr "application/json"))
  else complete this p h = Normal q.
Proof.
  unfold complete. simpl.
  destruct (negb (truthy (contentType p)) && _); [|done].
  by destruct (bool_decide (typeof (data p) = "object")).
Qed.

Lemma complete_keeps `{JSON} {T : Type} `{ResourceAdapter T}
    (this : T) (p q : params) (h : heap) :
  complete this p h = Normal q →
  url q = url (addressed this p h) ∧ type q = type p ∧ dataType q = VStr "json".
Proof.
  intros Hq. pose proof (complete_spec this p h) as Hspec. cbv zeta in Hspec.
  destruct (negb (truthy (contentType p)) && _).
  - destruct (bool_decide (typeof (data p) = "object")).
    + rewrite Hq in Hspec. destruct (JSON_stringify h (data p)); [|done].
      by injection Hspec as ->.
    + rewrite Hq in Hspec. by injection Hspec as ->.
  - rewrite Hq in Hspec. by injection Hspec as ->.
Qed.

Lemma addressed_url {T : Type} `{ResourceAdapter T} (this : T) (p : params) (h : heap) :
  truthy (url p) = false → url (addressed this p h) = this_resourceUrl this h.
Proof. intros Hurl. unfold addressed. simpl. by rewrite Hurl. Qed.


(** *** The store after two allocations *)

Lemma heap_lookup_0 (h : heap) (a b : cell) : (h ++ [a; b]) !! List.length h = Some a.
Proof. by rewrite list_lookup_middle. Qed.

Lemma heap_lookup_1 (h : heap) (a b : cell) : (h ++ [a; b]) !! S (List.length h) = Some b.
Proof.
  rewrite lookup_app_r by lia.
  by replace (S (List.length h) - List.length h)%nat with 1%nat by lia.
Qed.

Lemma heap_insert_0 (h : heap) (a b c : cell) :
  <[List.length h := c]> (h ++ [a; b]) = h ++ [c; b].
Proof.
  rewrite insert_app_r_alt by lia.
  by replace (List.length h - List.length h)%nat with 0%nat by lia.
Qed.

Lemma heap_insert_1 (h : heap) (a b c : cell) :
  <[S (List.length h) := c]> (h ++ [a; b]) = h ++ [a; c].
Proof.
  rewrite insert_app_r_alt by lia.
  by replace (S (List.length h) - List.length h)%nat with 1%nat by lia.
Qed.

(** *** serialize *)

Lemma obj_find_set_eq (props : list (string * value)) (k : string) (v : value) :
  obj_find (obj_set props k v) k = Some v.
Proof.
  induction props as [|[k' v'] props IH]; simpl.
  - by rewrite decide_True.
  - destruct (decide (k' = k)) as [->|Hne]; simpl.
    + by rewrite decide_True.
    + by rewrite decide_False.
Qed.

Lemma obj_find_set_ne (props : list (string * value)) (k k' : string) (v : value) :
  k ≠ k' → obj_find (obj_set props k v) k' = obj_find props k'.
Proof.
  intros Hne. induction props as [|[k0 v0] props IH]; simpl.
  - by rewrite decide_False.
  - destruct (decide (k0 = k)) as [->|Hne0]; simpl.
    + by rewrite !decide_False.
    + destruct (decide (k0 = k')); [done | apply IH].
Qed.

Lemma serialize_loop (r : Resource.t) (h : heap) (name : string)
    (props : list string) (inner : list (string * value)) :
  fold_left (Resource.serialize_step r (VRef (List.length h)) name) props
    (Normal (h ++ [CObj [(name, VRef (S (List.length h)))]; CObj inner]))
  = Normal (h ++ [CObj [(name, VRef (S (List.length h)))]; CObj (serialized r props inner)]).
Proof.
  revert inner. induction props as [|p props IH]; intros inner; [done|].
  simpl. unfold member. rewrite heap_lookup_0.
  unfold obj_get; simpl. rewrite decide_True by done. simpl.
  rewrite heap_lookup_1, heap_insert_1. apply IH.
Qed.

Lemma serialize_spec (r : Resource.t) (h : heap) (props : list string) :
  Resource.resourceProperties (Resource.constructor r) = Some props →
  Resource.serialize r h =
    Normal (VRef (List.length h),
            h ++ [CObj [(ToString h (Resource.opt_value
                                       (Resource.resourceName (Resource.constructor r))),
                         VRef (S (List.length h)))];
                  CObj (serialized r props [])]).
Proof.
  intros Hprops. unfold Resource.serialize, alloc.
  rewrite <- app_assoc. simpl.
  rewrite length_app. simpl.
  replace (List.length h + 1)%nat with (S (List.length h)) by lia.
  rewrite heap_lookup_0, heap_insert_0. simpl.
  rewrite Hprops. by rewrite serialize_loop.
Qed.

Lemma serialize_throws (r : Resource.t) (h : heap) :
  Resource.resourceProperties (Resource.constructor r) = None →
  Resource.serialize r h = Throw TypeError.
Proof.
  intros Hprops. unfold Resource.serialize, alloc.
  rewrite <- app_assoc. simpl.
  rewrite heap_lookup_0. by rewrite Hprops.
Qed.

(** *** The URL of a resource *)

Lemma ToString_str (h : heap) (s : string) : ToString h (VStr s) = s.
Proof. unfold ToString. by destruct (List.length h). Qed.

Lemma ToString_num (h : heap) (n : Z) : ToString h (VNum n) = pretty n.
Proof. unfold ToString. by destruct (List.length h). Qed.


Lemma validation_passed (r : Resource.t) (h : heap) :
  passes_validation r h →
  truthy match Resource.validate (Resource.constructor r) with
         | Some validate => validate (Resource.fields r) h
         | None => VUndefined
         end = false.
Proof. unfold passes_validation. by destruct (Resource.validate _). Qed.

(** [saveResource] once validation has passed and [serialize] has
    returned: the request goes out when the body has a JSON text, and what
    [JSON.stringify] raises is raised before anything goes out when it has
    none. *)
Lemma saveResource_spec `{JSON} (r : Resource.t) (w : world) (body : value) (h' : heap) :
  passes_validation r (store w) →
  Resource.serialize r (store w) = Normal (body, h') →
  typeof body = "object" →
  Resource.saveResource r w =
    match JSON_stringify h' body with
    | Normal text =>
        Normal (Resource.Pending,
                {| store := h';
                   sent := sent w ++
                     outgoing r
                       {| type := if Resource.isNew r (store w) then "POST" else "PUT";
                          url := Resource._resourceUrl r h';
                          data := VStr text;
                          contentType := VStr "application/json";
                          dataType := VStr "json" |} |})
    | Throw e => Throw e
    end.
Proof.
  intros Hpass Hser Hobj. unfold Resource.saveResource.
  rewrite (validation_passed r (store w) Hpass), Hser.
  unfold _resourceRequest, complete, addressed. simpl.
  assert (bool_decide ((if Resource.isNew r (store w) then "POST" else "PUT") = "PUT")
          || bool_decide ((if Resource.isNew r (store w) then "POST" else "PUT") = "POST")
          = true) as ->.
  { by destruct (Resource.isNew r (store w)). }
  rewrite bool_decide_eq_true_2 by done.
  by destruct (JSON_stringify h' body).
Qed.

Lemma serialize_object (r : Resource.t) (h h' : heap) (body : value) :
  Resource.serialize r h = Normal (body, h') → typeof body = "object".
Proof.
  intros Hser.
  destruct (Resource.resourceProperties (Resource.constructor r)) as [props|] eqn:Hprops.
  - rewrite (serialize_spec r h props Hprops) in Hser. by injection Hser as <- _.
  - by rewrite serialize_throws in Hser.
Qed.

(** *** deserialize *)

Lemma obj_find_not_key (kvs : list (string * value)) (k : string) :
  k ∉ kvs.*1 → obj_find kvs k = None.
Proof.
  induction kvs as [|[k' v'] kvs IH]; simpl; [done|].
  intros Hk. apply not_elem_of_cons in Hk as [Hne Hk].
  rewrite decide_False by done. by apply IH.
Qed.

Lemma obj_find_elem (kvs : list (string * value)) (k : string) (v : value) :
  obj_find kvs k = Some v → (k, v) ∈ kvs.
Proof.
  induction kvs as [|[k' v'] kvs IH]; simpl; [done|].
  destruct (decide (k' = k)) as [->|Hne].
  - intros [= ->]. by left.
  - intros Hv. right. by apply IH.
Qed.

Lemma obj_find_NoDup (kvs : list (string * value)) (k : string) (v : value) :
  NoDup kvs.*1 → (k, v) ∈ kvs → obj_find kvs k = Some v.
Proof.
  induction kvs as [|[k' v'] kvs IH]; intros Hnd Hin.
  - by apply elem_of_nil in Hin.
  - rewrite fmap_cons in Hnd. apply NoDup_cons in Hnd as [Hk' Hnd]. simpl in *.
    apply elem_of_cons in Hin as [[= -> ->]|Hin].
    + by rewrite decide_True.
    + rewrite decide_False; [by apply IH|].
      intros ->. apply Hk'. apply list_elem_of_fmap. by exists (k, v).
Qed.

Lemma get_set_eq (r : Resource.t) (k : string) (v : value) :
  Resource.get (Resource.set r k v) k = v.
Proof. unfold Resource.get, Resource.set. simpl. by rewrite lookup_insert_eq. Qed.

Lemma get_set_ne (r : Resource.t) (k k' : string) (v : value) :
  k ≠ k' → Resource.get (Resource.set r k v) k' = Resource.get r k'.
Proof. intros. unfold Resource.get, Resource.set. simpl. by rewrite lookup_insert_ne. Qed.

Lemma get_notify (r : Resource.t) (c : change) (k : string) :
  Resource.get (Resource.notify r c) k = Resource.get r k.
Proof. reflexivity. Qed.

(** No [data_name] hides the method [hasOwnProperty]. *)
Lemma data_names_shadow_nothing (kvs : list (string * value)) :
  data_names kvs.*1 → obj_find kvs "hasOwnProperty" = None.
Proof.
  intros Hk. apply obj_find_not_key. intros Hin.
  unfold data_names in Hk. rewrite Forall_forall in Hk.
  specialize (Hk _ Hin). vm_compute in Hk. discriminate Hk.
Qed.

(** The two ways [deserialize] ends. *)
Lemma deserialize_returns (r : Resource.t) (h : heap) (json : value) :
  obj_find (own_props h json) "hasOwnProperty" = None →
  Resource.deserialize r h json
  = (Resource.notify
       (fold_left (fun this kv => Resource.deserializeProperty this kv.1 kv.2)
          (own_props h json) (Resource.notify r BeginPropertyChanges))
       EndPropertyChanges, None).
Proof. intros Hf. unfold Resource.deserialize. by rewrite Hf. Qed.

Lemma deserialize_raises (r : Resource.t) (h : heap) (json v : value) :
  obj_find (own_props h json) "hasOwnProperty" = Some v →
  typeof v ≠ "function" →
  Resource.deserialize r h json
  = (Resource.notify r BeginPropertyChanges, Some TypeError).
Proof.
  intros Hf Hv. unfold Resource.deserialize. rewrite Hf.
  by rewrite bool_decide_eq_false_2.
Qed.

Lemma deserialize_cases (r : Resource.t) (h : heap) (json : value) :
  Resource.deserialize r h json
  = (Resource.notify
       (fold_left (fun this kv => Resource.deserializeProperty this kv.1 kv.2)
          (own_props h json) (Resource.notify r BeginPropertyChanges))
       EndPropertyChanges, None)
  ∨ Resource.deserialize r h json
    = (Resource.notify r BeginPropertyChanges, Some TypeError).
Proof.
  unfold Resource.deserialize.
  destruct (obj_find (own_props h json) "hasOwnProperty") as [v|]; [|by left].
  destruct (bool_decide (typeof v = "function")); [by left | by right].
Qed.

Lemma deserialize_falsy (r : Resource.t) (h : heap) (json : value) :
  truthy json = false →
  Resource.fields (Resource.deserialize r h json).1 = Resource.fields r.
Proof.
  destruct json as [| |b|n|s|f|e|l]; simpl; try done.
  destruct s; [done|]. intros; simplify_eq/=.
Qed.

Lemma fold_deserialize_constructor (kvs : list (string * value)) (r : Resource.t) :
  Resource.constructor
    (fold_left (fun this kv => Resource.deserializeProperty this kv.1 kv.2) kvs r)
  = Resource.constructor r ∧
  Resource.isDestroyed
    (fold_left (fun this kv => Resource.deserializeProperty this kv.1 kv.2) kvs r)
  = Resource.isDestroyed r.
Proof.
  revert r. induction kvs as [|[k v] kvs IH]; intros r; [done|].
  simpl. destruct (IH (Resource.deserializeProperty r k v)) as [-> ->].
  unfold Resource.deserializeProperty. by destruct (negb _).
Qed.

Lemma deserialize_constructor (r : Resource.t) (h : heap) (json : value) :
  Resource.constructor (Resource.deserialize r h json).1 = Resource.constructor r.
Proof.
  destruct (deserialize_cases r h json) as [-> | ->]; simpl; [|done].
  by rewrite (proj1 (fold_deserialize_constructor _ _)).
Qed.

Lemma deserialize_isDestroyed (r : Resource.t) (h : heap) (json : value) :
  Resource.isDestroyed (Resource.deserialize r h json).1 = Resource.isDestroyed r.
Proof.
  destruct (deserialize_cases r h json) as [-> | ->]; simpl; [|done].
  by rewrite (proj2 (fold_deserialize_constructor _ _)).
Qed.

Lemma fold_deserialize_changes (kvs : list (string * value)) (r : Resource.t) :
  ∃ cs, Resource.changes
          (fold_left (fun this kv => Resource.deserializeProperty this kv.1 kv.2) kvs r)
        = Resource.changes r ++ cs.
Proof.
  revert r. induction kvs as [|[k v] kvs IH]; intros r; simpl.
  - exists []. by rewrite app_nil_r.
  - destruct (IH (Resource.deserializeProperty r k v)) as [cs ->].
    unfold Resource.deserializeProperty.
    destruct (negb _); simpl.
    + rewrite <- app_assoc. by eexists.
    + by eexists.
Qed.

(** Every call of [deserialize] opens a batch of changes, whether it
    returns or raises. *)
Lemma deserialize_notifies (r : Resource.t) (h : heap) (json : value) :
  ∃ cs, Resource.changes (Resource.deserialize r h json).1
        = Resource.changes r ++ BeginPropertyChanges :: cs.
Proof.
  destruct (deserialize_cases r h json) as [-> | ->]; simpl; [|by exists []].
  destruct (fold_deserialize_changes (own_props h json)
              (Resource.notify r BeginPropertyChanges)) as [cs ->].
  simpl. exists (cs ++ [EndPropertyChanges]). by rewrite <- !app_assoc.
Qed.

(** While neither the resource nor the input holds a function under the
    name [prop], the loop of [deserialize] assigns every key. *)
Lemma fold_deserialize_get (kvs : list (string * value)) (r : Resource.t) :
  NoDup kvs.*1 →
  ¬ has_method r "prop" →
  (∀ v, obj_find kvs "prop" = Some v → typeof v ≠ "function") →
  ∀ k, Resource.get
         (fold_left (fun this kv => Resource.deserializeProperty this kv.1 kv.2) kvs r) k
       = default (Resource.get r k) (obj_find kvs k).
Proof.
  revert r. induction kvs as [|[k0 v0] kvs IH]; intros r Hnd Hr Hin k; [done|].
  apply NoDup_cons in Hnd as [Hk0 Hnd]. simpl.
  assert (Resource.deserializeProperty r k0 v0 = Resource.set r k0 v0) as ->.
  { unfold Resource.deserializeProperty. by rewrite bool_decide_eq_false_2. }
  rewrite IH; [| done | |].
  - destruct (decide (k0 = k)) as [->|Hne].
    + rewrite obj_find_not_key by done. simpl. apply get_set_eq.
    + by rewrite get_set_ne.
  - unfold has_method. destruct (decide (k0 = "prop")) as [->|Hne].
    + rewrite get_set_eq. by apply Hin.
    + by rewrite get_set_ne.
  - intros v Hv. apply Hin. simpl.
    destruct (decide (k0 = "prop")) as [->|Hne]; [|done].
    by rewrite obj_find_not_key in Hv.
Qed.

Lemma fold_deserialize_sets (kvs : list (string * value)) (r : Resource.t) :
  ¬ has_method r "prop" →
  (∀ v, ("prop", v) ∈ kvs → typeof v ≠ "function") →
  Resource.changes
    (fold_left (fun this kv => Resource.deserializeProperty this kv.1 kv.2) kvs r)
  = Resource.changes r ++ map (fun kv => PropertySet kv.1 kv.2) kvs.
Proof.
  revert r. induction kvs as [|[k0 v0] kvs IH]; intros r Hr Hin.
  - simpl. by rewrite app_nil_r.
  - simpl.
    assert (Resource.deserializeProperty r k0 v0 = Resource.set r k0 v0) as ->.
    { unfold Resource.deserializeProperty. by rewrite bool_decide_eq_false_2. }
    rewrite IH.
    + simpl. by rewrite <- app_assoc.
    + unfold has_method. destruct (decide (k0 = "prop")) as [->|Hne].
      * rewrite get_set_eq. apply Hin. by left.
      * by rewrite get_set_ne.
    + intros v Hv. apply Hin. by right.
Qed.

(** Given a [plain_object], [deserialize] returns, and every property of
    the resource then has the value the object holds for it, or the value
    it had. *)
Lemma deserialize_plain (r : Resource.t) (h : heap) (json : value) :
  plain_object h json →
  ¬ has_method r "prop" →
  (Resource.deserialize r h json).2 = None ∧
  ∀ k, Resource.get (Resource.deserialize r h json).1 k
       = default (Resource.get r k) (obj_find (own_props h json) k).
Proof.
  intros (Hnames & Hnd & Hprop) Hr.
  rewrite (deserialize_returns r h json (data_names_shadow_nothing _ Hnames)).
  split; [done|]. intros k. simpl. rewrite get_notify.
  rewrite (fold_deserialize_get (own_props h json)
             (Resource.notify r BeginPropertyChanges)); [done | exact Hnd | exact Hr |].
  intros v Hv. by apply Hprop, obj_find_elem.
Qed.

(** While the resource has a method called [prop], [deserialize] assigns
    nothing. *)
Lemma fold_deserialize_guarded (kvs : list (string * value)) (r : Resource.t) :
  has_method r "prop" →
  fold_left (fun this kv => Resource.deserializeProperty this kv.1 kv.2) kvs r = r.
Proof.
  intros Hr. induction kvs as [|[k0 v0] kvs IH]; [done|]. simpl.
  unfold Resource.deserializeProperty at 2.
  by rewrite bool_decide_eq_true_2.
Qed.

(** C2.  [deserializeProperty] tests the property called [prop], not the
    property the key names.  A contact has the method [fullName]; the input
    [{fullName: "x"}] overwrites it.  A resource with a method called [prop]
    keeps [first_name] undefined on the input [{first_name: "Ada"}], a key
    under which it has no method.  Both calls return. *)
Theorem deserialize_guard_tests_prop :
  (let r := Resource.create Sample.Contact in
   let h := [CObj [("fullName", VStr "x")]] in
   has_method r "fullName" ∧
   (Resource.deserialize r h (VRef 0%nat)).2 = None ∧
   Resource.get (Resource.deserialize r h (VRef 0%nat)).1 "fullName" = VStr "x") ∧
  (let r := Resource.create Sample.Guarded in
   let h := [CObj [("first_name", VStr "Ada")]] in
   ¬ has_method r "first_name" ∧
   (Resource.deserialize r h (VRef 0%nat)).2 = None ∧
   Resource.get (Resource.deserialize r h (VRef 0%nat)).1 "first_name" = VUndefined).
Proof.
  split; simpl.
  - split; [reflexivity|]. split; by vm_compute.
  - split; [by vm_compute|]. split; by vm_compute.
Qed.


(** *** saveResource *)

(** A contact whose [tags] is an array that holds itself has no JSON text:
    it passes validation, [JSON.stringify] raises, and nothing is sent. *)
Lemma knotted_body_is_not_sent :
  ¬ request_proceeds (H := Sample.host) Sample.ada
      {| store := Sample.knot_store; sent := [] |}.
Proof.
  intros Hclaim. destruct (Hclaim I) as (w' & p & Hsave & _).
  vm_compute in Hsave. discriminate Hsave.
Qed.

(** C3, amended.  When [validate] is defined and returns a truthy value,
    [saveResource] hands back a promise rejected with that very value and
    the world is as before: nothing has been sent.  When [validate] is
    undefined or returns a value that is not truthy, a [tidy] resource
    whose id is a [scalar] and whose type declares an id field and
    [resourceProperties] that are [data_name]s is serialized; its request
    goes out when what [serialize] returned has a JSON text, and
    [saveResource] raises what [JSON.stringify] raises, without sending
    anything, when it has none. *)
Theorem validate_gates_save `{JSON} (r : Resource.t) (w : world) :
  (∀ hook, Resource.validate (Resource.constructor r) = Some hook →
     truthy (hook (Resource.fields r) (store w)) = true →
     Resource.saveResource r w =
       Normal (Resource.RejectedAtOnce (hook (Resource.fields r) (store w)), w)) ∧
  (Resource.validate (Resource.constructor r) = None ∨
   (∃ hook, Resource.validate (Resource.constructor r) = Some hook ∧
            truthy (hook (Resource.fields r) (store w)) = false) →
   ∀ props, Resource.resourceProperties (Resource.constructor r) = Some props →
     data_names props →
     data_name (Resource.resourceIdField (Resource.constructor r)) = true →
     tidy r →
     scalar (Resource.get r (Resource.resourceIdField (Resource.constructor r))) →
     ∃ body h',
       Resource.serialize r (store w) = Normal (body, h') ∧
       (∀ text, JSON_stringify h' body = Normal text →
          ∃ w' p, Resource.saveResource r w = Normal (Resource.Pending, w') ∧
                  sent w' = sent w ++ outgoing r p ∧
                  data p = VStr text) ∧
       (∀ e, JSON_stringify h' body = Throw e → Resource.saveResource r w = Throw e)).
Proof.
  split.
  - intros hook Hhook Htrue. unfold Resource.saveResource.
    rewrite Hhook. by rewrite Htrue.
  - intros Hpass props Hprops _ _ _ _.
    assert (passes_validation r (store w)) as Hpass'.
    { unfold passes_validation. destruct Hpass as [->|(hook & -> & ?)]; done. }
    pose proof (serialize_spec r (store w) props Hprops) as Hser.
    eexists _, _. split; [exact Hser|].
    pose proof (saveResource_spec r w _ _ Hpass' Hser eq_refl) as Hsave.
    split.
    + intros text Htext. rewrite Htext in Hsave. by eexists _, _.
    + intros e Hraise. by rewrite Hraise in Hsave.
Qed.

(** Ada's save does not resolve when the response holds a key
    [hasOwnProperty]: [deserialize] raises and the promise is rejected with
    the [TypeError].  And Ada is not saved at all while her [tags] is an
    array that holds itself. *)
Lemma save_fails_on_shadowed_key_and_on_knot :
  ¬ saves_and_reloads (H := Sample.host) Sample.ada Sample.empty_world
      shadowing_store (VRef 0%nat) ∧
  ¬ saves_and_reloads (H := Sample.host) Sample.ada
      {| store := Sample.knot_store; sent := [] |} Sample.ada_store VUndefined ∧
  Resource.saveResource_settle (H := Sample.host) Sample.ada shadowing_store
    (Success (VRef 0%nat)) = (Rejected TypeError, shadowing_store).
Proof.
  split; [|split].
  - intros Hclaim. destruct (Hclaim I) as (_ & self' & Hsettle).
    vm_compute in Hsettle. discriminate Hsettle.
  - intros Hclaim. destruct (Hclaim I) as ((body & h' & text & p & _ & _ & Hsave & _) & _).
    vm_compute in Hsave. discriminate Hsave.
  - reflexivity.
Qed.

(** C8, amended.  A [tidy] resource that passes validation, whose id is a
    [scalar] and whose type declares an id field and [resourceProperties]
    that are [data_name]s, is serialized, and when what [serialize]
    returned has a JSON text it sends one request, a POST when it is new
    and a PUT otherwise, whose body is that text.  When the request
    succeeds with a
    body that is not truthy the promise resolves with the resource as it
    is; when it succeeds with a [plain_object], and the resource is [tidy],
    has not been torn down and has no method called [prop], the promise
    resolves with the resource, into which the body has been deserialized:
    it has the value of every key of the body. *)
Theorem save_sends_post_or_put `{JSON} (r : Resource.t) (w : world) (props : list string) :
  passes_validation r (store w) →
  Resource.resourceProperties (Resource.constructor r) = Some props →
  data_names props →
  data_name (Resource.resourceIdField (Resource.constructor r)) = true →
  tidy r →
  scalar (Resource.get r (Resource.resourceIdField (Resource.constructor r))) →
  (∃ body h',
     Resource.serialize r (store w) = Normal (body, h') ∧
     ∀ text, JSON_stringify h' body = Normal text →
       ∃ p, Resource.saveResource r w =
              Normal (Resource.Pending,
                      {| store := h'; sent := sent w ++ outgoing r p |}) ∧
            type p = (if Resource.isNew r (store w) then "POST" else "PUT") ∧
            data p = VStr text) ∧
  (∀ self h json,
     (truthy json = false →
      tidy self →
      Resource.saveResource_settle self h (Success json) = (Resolved self, h)) ∧
     (truthy json = true →
      tidy self →
      Resource.isDestroyed self = false →
      ¬ has_method self "prop" →
      plain_object h json →
      ∃ self', Resource.saveResource_settle self h (Success json) = (Resolved self', h) ∧
               self' = (Resource.deserialize self h json).1 ∧
               Resource.constructor self' = Resource.constructor self ∧
               ∀ k v, (k, v) ∈ own_props h json → Resource.get self' k = v)).
Proof.
  intros Hpass Hprops _ _ _ _. split.
  - pose proof (serialize_spec r (store w) props Hprops) as Hser.
    eexists _, _. split; [exact Hser|].
    intros text Htext.
    pose proof (saveResource_spec r w _ _ Hpass Hser eq_refl) as Hsave.
    rewrite Htext in Hsave. by eexists.
  - intros self h json. split.
    + intros Hj _. unfold Resource.saveResource_settle, Resource.saveResource_then.
      unfold Ember.ajaxPromise_settle, and_then. by rewrite Hj.
    + intros Hj _ _ Hself Hplain.
      destruct (deserialize_plain self h json Hplain Hself) as [Hret Hget].
      exists (Resource.deserialize self h json).1.
      split; [|split; [done|split]].
      * unfold Resource.saveResource_settle, Resource.saveResource_then.
        unfold Ember.ajaxPromise_settle, and_then, Resource.returned.
        by rewrite Hj, Hret.
      * apply deserialize_constructor.
      * intros k v Hkv. rewrite Hget.
        destruct Hplain as (_ & Hnd & _).
        by rewrite (obj_find_NoDup _ k v Hnd Hkv).
Qed.

(** C10.  When the request of [saveResource] succeeds with a body that is
    not truthy, the promise resolves with the resource exactly as it was:
    no property has changed, and no change has been notified, whereas any
    call of [deserialize] notifies some. *)
Theorem save_without_body_leaves_resource `{JSON} (self : Resource.t) (h : heap) (json : value) :
  truthy json = false →
  Resource.saveResource_settle self h (Success json) = (Resolved self, h) ∧
  Resource.saveResource_then self h json = (self, None) ∧
  (∀ h' json', Resource.changes (Resource.deserialize self h' json').1
               ≠ Resource.changes self).
Proof.
  intros Hj. unfold Resource.saveResource_settle, Resource.saveResource_then.
  unfold Ember.ajaxPromise_settle, and_then. rewrite Hj. split; [done|]. split; [done|].
  intros h' json' Heq.
  destruct (deserialize_notifies self h' json') as [cs Hcs].
  rewrite Hcs in Heq. apply (f_equal List.length) in Heq.
  rewrite length_app in Heq. simpl in Heq. lia.
Qed.

(** *** findAll *)

Lemma pushObject_content (ctl : ResourceController.t) (c : list Resource.t)
    (r : Resource.t) :
  ResourceController.pushObject (ResourceController.set_content ctl c) r
  = Normal (ResourceController.set_content ctl (c ++ [r])).
Proof. reflexivity. Qed.

(** [load] on a value [deserialize] returns for. *)
Lemma load_returned (ctl : ResourceController.t) (h : heap) (json : value)
    (c : list Resource.t) :
  (Resource.deserialize (Resource.create (ResourceController.resourceType ctl)) h json).2
  = None →
  ResourceController.load (ResourceController.set_content ctl c) h json
  = Normal (ResourceController.set_content ctl
              (c ++ [(Resource.deserialize
                        (Resource.create (ResourceController.resourceType ctl)) h json).1])).
Proof.
  intros Hret. unfold ResourceController.load, Resource.returned. simpl.
  by rewrite Hret.
Qed.

Lemma loadAll_rounds (ctl : ResourceController.t) (h : heap) (json : value)
    (vs : list value) (s : nat) (c : list Resource.t) :
  (∀ i v, vs !! i = Some v → member h json (nat_key (s + i)) = v) →
  Forall (fun v => (Resource.deserialize
                      (Resource.create (ResourceController.resourceType ctl)) h v).2
                   = None) vs →
  fold_left (fun acc i =>
               match acc with
               | Throw e => Throw e
               | Normal this => ResourceController.load this h (member h json (nat_key i))
               end)
            (seq s (List.length vs)) (Normal (ResourceController.set_content ctl c))
  = Normal (ResourceController.set_content ctl
              (c ++ map (fun v => (Resource.deserialize
                                     (Resource.create (ResourceController.resourceType ctl))
                                     h v).1) vs)).
Proof.
  revert s c. induction vs as [|v vs IH]; intros s c Hvs Hret; simpl.
  - by rewrite app_nil_r.
  - apply Forall_cons in Hret as [Hv Hret].
    pose proof (Hvs 0%nat v eq_refl) as Hm. rewrite Nat.add_0_r in Hm. rewrite Hm.
    rewrite (load_returned ctl h v c Hv), IH.
    + by rewrite <- app_assoc.
    + intros i v' Hi. replace (S s + i)%nat with (s + S i)%nat by lia. by apply Hvs.
    + done.
Qed.

Lemma loadAll_array (ctl : ResourceController.t) (h : heap) (l : loc)
    (items : list value) (named : list (string * value)) (c : list Resource.t) :
  h !! l = Some (CArr items named) →
  Forall (fun v => (Resource.deserialize
                      (Resource.create (ResourceController.resourceType ctl)) h v).2
                   = None) items →
  ResourceController.loadAll (ResourceController.set_content ctl c) h (VRef l)
  = Normal (ResourceController.set_content ctl
              (c ++ map (fun v => (Resource.deserialize
                                     (Resource.create (ResourceController.resourceType ctl))
                                     h v).1) items)).
Proof.
  intros Hl Hret. unfold ResourceController.loadAll. simpl isNone. cbv iota.
  rewrite (member_array_length h l items named) by done.
  unfold ResourceController.rounds. rewrite Nat2Z.id.
  apply (loadAll_rounds ctl h (VRef l) items 0 c); [|done].
  intros i v Hi. by apply (member_array_item h l items named).
Qed.

Lemma plain_objects_return (c : Resource.class) (h : heap) (items : list value) :
  ¬ has_method (Resource.create c) "prop" →
  Forall (plain_object h) items →
  Forall (fun v => (Resource.deserialize (Resource.create c) h v).2 = None) items.
Proof.
  intros Hc Hitems. eapply Forall_impl; [exact Hitems|]. intros v Hv.
  by destruct (deserialize_plain (Resource.create c) h v Hv Hc).
Qed.

(** The list [[{hasOwnProperty: 1}]]: loading its element raises, and the
    promise of [findAll] is rejected with the [TypeError]. *)
Lemma findAll_rejects_shadowed_key :
  ¬ loads_each_element (H := Sample.host) Sample.contacts shadowing_store 1%nat ∧
  ResourceController.findAll_settle (H := Sample.host) Sample.contacts shadowing_store
    (Success (VRef 1%nat)) = (Rejected TypeError, shadowing_store).
Proof.
  split; [|reflexivity].
  intros Hclaim.
  destruct (Hclaim [VRef 0%nat] [] eq_refl) as (ctl' & loaded & torn & Hsettle & _).
  vm_compute in Hsettle. discriminate Hsettle.
Qed.

(** C9, amended.  When the request of [findAll] succeeds with a JSON array
    whose elements are [plain_object]s, the resources the controller holds
    are [tidy], and a new instance of the resource type is [tidy] and has
    no method called [prop], the promise resolves with the content of the
    controller,
    which is then one resource per element, each a new instance of the
    resource type deserialized from its element (it has the value of every
    key of the element), in the order of the array; what the controller
    held before is torn down and is no longer in the content.  For the
    array [[a, b]] these are exactly two resources. *)
Theorem findAll_replaces_content `{JSON} (ctl : ResourceController.t) (h : heap) (l : loc)
    (items : list value) (named : list (string * value)) :
  h !! l = Some (CArr items named) →
  Forall tidy (default [] (ResourceController.content ctl)) →
  tidy (Resource.create (ResourceController.resourceType ctl)) →
  ¬ has_method (Resource.create (ResourceController.resourceType ctl)) "prop" →
  Forall (plain_object h) items →
  let fresh json := (Resource.deserialize
                       (Resource.create (ResourceController.resourceType ctl)) h json).1 in
  let torn_down := map Resource.destroy (default [] (ResourceController.content ctl)) in
  (∃ ctl',
     ResourceController.findAll_settle ctl h (Success (VRef l)) =
       (Resolved (ctl', Some (map fresh items), torn_down), h) ∧
     ResourceController.findAll_then ctl h (VRef l) =
       Normal (ctl', Some (map fresh items), torn_down) ∧
     ResourceController.content ctl' = Some (map fresh items)) ∧
  (∀ a b, items = [a; b] →
     ∃ ctl', ResourceController.findAll_settle ctl h (Success (VRef l)) =
               (Resolved (ctl', Some [fresh a; fresh b], torn_down), h)) ∧
  (∀ a, a ∈ items →
     Resource.constructor (fresh a) = ResourceController.resourceType ctl ∧
     Resource.isDestroyed (fresh a) = false ∧
     ∀ k v, (k, v) ∈ own_props h a → Resource.get (fresh a) k = v).
Proof.
  intros Hl _ _ Hrt Hitems fresh torn_down.
  assert (ResourceController.findAll_then ctl h (VRef l) =
            Normal (ResourceController.set_content ctl (map fresh items),
                    Some (map fresh items), torn_down))
    as Hthen.
  { unfold ResourceController.findAll_then, ResourceController.clearAll.
    rewrite (loadAll_array ctl h l items named []) by (by try apply plain_objects_return).
    simpl. unfold torn_down. by destruct (ResourceController.content ctl). }
  assert (ResourceController.findAll_settle ctl h (Success (VRef l)) =
            (Resolved (ResourceController.set_content ctl (map fresh items),
                       Some (map fresh items), torn_down), h))
    as Hsettle.
  { unfold ResourceController.findAll_settle, Ember.ajaxPromise_settle, and_then.
    by rewrite Hthen. }
  split; [|split].
  - eexists. split; [exact Hsettle|]. split; [exact Hthen|done].
  - intros a b ->. eexists. exact Hsettle.
  - intros a Ha. unfold fresh.
    rewrite deserialize_constructor, deserialize_isDestroyed.
    split; [done|]. split; [done|].
    rewrite Forall_forall in Hitems. specialize (Hitems a Ha).
    destruct (deserialize_plain _ h a Hitems Hrt) as [_ Hget].
    intros k v Hkv. rewrite Hget.
    destruct Hitems as (_ & Hnd & _).
    by rewrite (obj_find_NoDup _ k v Hnd Hkv).
Qed.

(** *** serialize, then deserialize *)

Lemma serialized_find (r : Resource.t) (props : list string)
    (inner : list (string * value)) (k : string) :
  obj_find (serialized r props inner) k
  = if decide (k ∈ props) then Some (Resource.get r k) else obj_find inner k.
Proof.
  revert inner. induction props as [|q props IH]; intros inner.
  - by rewrite decide_False by apply not_elem_of_nil.
  - change (serialized r (q :: props) inner)
      with (serialized r props (obj_set inner q (Resource.get r q))).
    rewrite IH. destruct (decide (k ∈ props)) as [Hin|Hnin].
    + rewrite decide_True; [done | by right].
    + destruct (decide (q = k)) as [->|Hne].
      * rewrite obj_find_set_eq. rewrite decide_True; [done | by left].
      * rewrite obj_find_set_ne by done.
        rewrite decide_False; [done|].
        intros Hk. apply elem_of_cons in Hk as [->|]; done.
Qed.

Lemma obj_set_keys (props : list (string * value)) (k : string) (v : value) :
  (obj_set props k v).*1 = if decide (k ∈ props.*1) then props.*1 else props.*1 ++ [k].
Proof.
  induction props as [|[k' v'] props IH].
  - by rewrite decide_False by apply not_elem_of_nil.
  - cbn [obj_set]. destruct (decide (k' = k)) as [->|Hne]; rewrite !fmap_cons; cbn [fst].
    + rewrite decide_True; [done | by left].
    + rewrite IH. destruct (decide (k ∈ props.*1)) as [Hin|Hnin].
      * rewrite decide_True; [done | by right].
      * rewrite decide_False; [done|].
        intros Hk. apply elem_of_cons in Hk as [->|]; done.
Qed.

Lemma obj_set_NoDup (props : list (string * value)) (k : string) (v : value) :
  NoDup props.*1 → NoDup (obj_set props k v).*1.
Proof.
  intros Hnd. rewrite obj_set_keys. destruct (decide (k ∈ props.*1)); [done|].
  apply NoDup_app. split; [done|]. split; [|apply NoDup_singleton].
  intros x Hx Hk. apply list_elem_of_singleton in Hk as ->. done.
Qed.

Lemma serialized_NoDup (r : Resource.t) (props : list string)
    (inner : list (string * value)) :
  NoDup inner.*1 → NoDup (serialized r props inner).*1.
Proof.
  revert inner. induction props as [|q props IH]; intros inner Hnd; [done|].
  apply IH. by apply obj_set_NoDup.
Qed.

Lemma obj_find_key (kvs : list (string * value)) (k : string) :
  k ∈ kvs.*1 → is_Some (obj_find kvs k).
Proof.
  induction kvs as [|[k' v'] kvs IH]; simpl.
  - intros Hk. by apply elem_of_nil in Hk.
  - intros Hk. destruct (decide (k' = k)); [by eexists|].
    apply IH. apply elem_of_cons in Hk as [->|]; done.
Qed.

(** The keys of the object [serialize] nests are the declared names. *)
Lemma serialized_keys (r : Resource.t) (props : list string) (k : string) :
  k ∈ (serialized r props []).*1 → k ∈ props.
Proof.
  intros Hk. apply obj_find_key in Hk as [v Hv].
  rewrite serialized_find in Hv. by destruct (decide (k ∈ props)).
Qed.

(** [serialize] nests the properties under the resource name, and
    [deserialize] reads the keys of the object it is given: the new contact
    gets a property [contact] and no [first_name]. *)
Lemma roundtrip_fails_on_nesting : ¬ roundtrip Sample.ada Sample.ada_store.
Proof.
  intros Hclaim.
  specialize (Hclaim ["first_name"; "tags"] _ _ eq_refl eq_refl "first_name").
  assert ("first_name" ∈ ["first_name"; "tags"]) as Hin by (by left).
  specialize (Hclaim Hin). vm_compute in Hclaim. discriminate.
Qed.

(** C1, amended.  For a resource type that declares [resourceProperties],
    all of them [data_name]s, [serialize] returns an object holding, under
    the resource name, an object that [deserialize] takes without raising
    and turns back into the original value of every declared property on a
    new instance of the type, provided the resource and the new instance
    are [tidy] and neither has a method called [prop]. *)
Theorem deserialize_restores_nested (r : Resource.t) (h : heap) (props : list string) :
  Resource.resourceProperties (Resource.constructor r) = Some props →
  data_names props →
  tidy r →
  tidy (Resource.create (Resource.constructor r)) →
  ¬ has_method (Resource.create (Resource.constructor r)) "prop" →
  ¬ has_method r "prop" →
  ∃ ret h',
    Resource.serialize r h = Normal (ret, h') ∧
    let name := ToString h (Resource.opt_value
                              (Resource.resourceName (Resource.constructor r))) in
    let restored := Resource.deserialize (Resource.create (Resource.constructor r)) h'
                      (member h' ret name) in
    restored.2 = None ∧
    ∀ p, p ∈ props → Resource.get restored.1 p = Resource.get r p.
Proof.
  intros Hprops Hnames _ _ Hfresh Hr. eexists _, _. split; [by apply serialize_spec|].
  intros name restored. unfold restored. clear restored.
  unfold member. rewrite heap_lookup_0.
  unfold obj_get. simpl. rewrite decide_True by done. simpl.
  assert (∀ a b, own_props (h ++ [a; CObj b]) (VRef (S (List.length h))) = b) as Hown.
  { intros a b. unfold own_props. by rewrite heap_lookup_1. }
  match goal with
  | |- (Resource.deserialize ?c ?h1 ?j).2 = _ ∧ _ =>
      destruct (deserialize_plain c h1 j) as [Hret Hget]
  end.
  - unfold plain_object. rewrite !Hown. split; [|split].
    + unfold data_names in *. rewrite Forall_forall in *.
      intros k Hk. by apply Hnames, (serialized_keys r).
    + apply serialized_NoDup. constructor.
    + intros v Hv. apply obj_find_NoDup in Hv; [|by apply serialized_NoDup; constructor].
      rewrite serialized_find in Hv.
      destruct (decide ("prop" ∈ props)); [|done].
      injection Hv as <-. exact Hr.
  - exact Hfresh.
  - split; [exact Hret|]. intros p Hp. rewrite Hget, Hown.
    rewrite serialized_find. by rewrite decide_True.
Qed.

(** *** The errors of the adapter *)

Lemma throw_with_status_object (h : heap) (l : loc) (c : cell) (st : value) :
  h !! l = Some c →
  Ember.throw_with_status h (VRef l) st = (VRef l, <[l := attach_status c st]> h).
Proof.
  intros Hl. unfold Ember.throw_with_status, set_prop. rewrite Hl. by destruct c.
Qed.

Lemma throw_with_status_new (h : heap) (st : value) :
  Ember.throw_with_status (h ++ [CObj []]) (VRef (List.length h)) st
  = (VRef (List.length h), h ++ [CObj [("status", st)]]).
Proof.
  rewrite (throw_with_status_object _ _ (CObj [])) by (by apply list_lookup_middle).
  f_equal. rewrite insert_app_r_alt by lia.
  by replace (List.length h - List.length h)%nat with 0%nat by lia.
Qed.

(** A response of status 500 whose body is HTML: the promise is rejected
    with a new object [{status: 500}], not with the response object. *)
Lemma html_error_is_not_passed_through :
  ¬ passes_unstructured_through (H := Sample.host)
      [CObj [("status", VNum 500); ("responseText", VStr "<h1>oops</h1>")]]
      {| err := VRef 0%nat;
         responseJSON := VUndefined;
         status := VNum 500;
         getAllResponseHeaders := Some "Content-Type: text/html";
         responseText := "<h1>oops</h1>" |}.
Proof.
  intros Hclaim.
  assert (Ember.ajaxPromise_settle (H := Sample.host)
            [CObj [("status", VNum 500); ("responseText", VStr "<h1>oops</h1>")]]
            (Failure {| err := VRef 0%nat; responseJSON := VUndefined;
                        status := VNum 500;
                        getAllResponseHeaders := Some "Content-Type: text/html";
                        responseText := "<h1>oops</h1>" |})
          = (Rejected (VRef 1%nat),
             [CObj [("status", VNum 500); ("responseText", VStr "<h1>oops</h1>")];
              CObj [("status", VNum 500)]])) as Hcode by (by vm_compute).
  rewrite Hclaim in Hcode; [discriminate|].
  split; [done|]. intros headers [= <-]. by vm_compute.
Qed.

(** C4, amended.  A failed request rejects the promise with: the body the
    transport has parsed, when it is truthy, with the status written on it
    when it is an object or an array, and as it is, without a status, when
    it is a number, a string or a boolean; otherwise, for a response whose
    headers contain [Content-Type: application/json], the parsed response
    text (an object or an array) with the status written on it, or a new
    object holding the status alone when the text does not parse; for a
    response with other headers, a new object holding the status alone; and
    for an error that has no headers to ask for, the error itself,
    unchanged. *)
Theorem ajaxPromise_normalizes_errors `{JSON} (h : heap) (e : failure) :
  (∀ l c, responseJSON e = VRef l → h !! l = Some c →
     Ember.ajaxPromise_settle h (Failure e)
     = (Rejected (VRef l), <[l := attach_status c (status e)]> h)) ∧
  (truthy (responseJSON e) = true →
   (∃ n, responseJSON e = VNum n) ∨ (∃ s, responseJSON e = VStr s)
   ∨ (∃ b, responseJSON e = VBool b) →
   Ember.ajaxPromise_settle h (Failure e) = (Rejected (responseJSON e), h)) ∧
  (truthy (responseJSON e) = false →
   (∀ headers, getAllResponseHeaders e = Some headers →
      contains headers "Content-Type: application/json" = true →
      (∀ l h' c, JSON_parse h (responseText e) = Some (VRef l, h') → h' !! l = Some c →
         Ember.ajaxPromise_settle h (Failure e)
         = (Rejected (VRef l), <[l := attach_status c (status e)]> h')) ∧
      (JSON_parse h (responseText e) = None →
         Ember.ajaxPromise_settle h (Failure e)
         = (Rejected (VRef (List.length h)), h ++ [CObj [("status", status e)]]))) ∧
   (∀ headers, getAllResponseHeaders e = Some headers →
      contains headers "Content-Type: application/json" = false →
      Ember.ajaxPromise_settle h (Failure e)
      = (Rejected (VRef (List.length h)), h ++ [CObj [("status", status e)]])) ∧
   (getAllResponseHeaders e = None →
      Ember.ajaxPromise_settle h (Failure e) = (Rejected (err e), h))).
Proof.
  unfold Ember.ajaxPromise_settle, Ember.ajaxPromise_catch. split; [|split].
  - intros l c -> Hl. simpl. by rewrite (throw_with_status_object h l c).
  - intros -> [[n ->]|[[s ->]|[b ->]]]; done.
  - intros ->. split; [|split].
    + intros headers -> ->. split.
      * intros l h' c -> Hl. by rewrite (throw_with_status_object h' l c).
      * intros ->. unfold alloc. by rewrite throw_with_status_new.
    + intros headers -> ->. unfold alloc. by rewrite throw_with_status_new.
    + by intros ->.
Qed.

(** *** copy *)

(** Ada's [tags] is [[["x"]]].  The [tags] of her copy is another array,
    but its element is the very array [["x"]] of the source: writing
    [copy.tags[0][0] = "y"] shows in [source.tags[0][0]]. *)
Lemma copy_shares_nested_array :
  ¬ copy_is_deep Sample.ada Sample.ada_store ∧
  ∃ c h', Resource.copy Sample.ada Sample.ada_store = Normal (c, h') ∧
          member h' (member h' (Resource.get Sample.ada "tags") "0") "0" = VStr "x" ∧
          let h'' := set_item h' (member h' (Resource.get c "tags") "0") 0 (VStr "y") in
          member h'' (member h'' (Resource.get Sample.ada "tags") "0") "0" = VStr "y".
Proof.
  split.
  - intros Hclaim.
    refine (Hclaim _ _ ["first_name"; "tags"] "tags" 1%nat eq_refl eq_refl _ _ _).
    + right. by left.
    + apply (reach_item _ 2%nat [VRef 1%nat] [] (VRef 1%nat)).
      * by vm_compute.
      * by left.
      * constructor.
    + apply (reach_item _ 0%nat [VRef 1%nat] [] (VRef 1%nat)).
      * by vm_compute.
      * by left.
      * constructor.
  - eexists _, _. split; [reflexivity|]. split; by vm_compute.
Qed.

Lemma duplicates_grow (h h' ext : heap) (v v' : value) :
  duplicates h h' v v' → duplicates h (h' ++ ext) v v'.
Proof.
  unfold duplicates. destruct v as [| |b|n|s|f|e|l]; try done.
  destruct (h !! l) as [[props|items named]|]; [| |done].
  - intros (l' & -> & Hl' & Hc). exists l'. split; [done|]. split; [done|].
    by apply lookup_app_l_Some.
  - intros (l' & -> & Hl' & Hc). exists l'. split; [done|]. split; [done|].
    by apply lookup_app_l_Some.
Qed.

(** One round of the loop of [duplicateProperties], in a store that
    extends [h]. *)
Lemma duplicateProperty_spec (source c : Resource.t) (h new : heap) (q : string) :
  ∃ v' ext,
    Resource.duplicateProperty source (c, h ++ new) q
    = (Resource.set c q v', (h ++ new) ++ ext) ∧
    duplicates h ((h ++ new) ++ ext) (Resource.get source q) v'.
Proof.
  unfold Resource.duplicateProperty, duplicates.
  destruct (Resource.get source q) as [| |b|n|s|f|e|l] eqn:Hq; simpl;
    try (by exists (Resource.get source q), []; rewrite Hq, app_nil_r).
  - exists (VRef (List.length (h ++ new))), [CObj []]. done.
  - destruct (h !! l) as [[props|items named]|] eqn:Hl.
    + rewrite (lookup_app_l_Some h new l _ Hl). simpl.
      rewrite (lookup_app_l_Some h new l _ Hl).
      eexists _, _. split; [done|]. eexists. split; [done|].
      split; [rewrite length_app; lia|]. by rewrite list_lookup_middle.
    + rewrite (lookup_app_l_Some h new l _ Hl). simpl.
      eexists _, _. split; [done|]. eexists. split; [done|].
      split; [rewrite length_app; lia|]. by rewrite list_lookup_middle.
    + destruct ((h ++ new) !! l) as [[props|items named]|]; simpl; by eexists _, _.
Qed.

(** The loop of [duplicateProperties]: the resource gets one assignment per
    name, in the order of the names, and nothing else about it changes. *)
Lemma duplicateProperties_loop (source c : Resource.t) (h : heap) (props : list string) :
  ∃ c' new vs,
    fold_left (Resource.duplicateProperty source) props (c, h) = (c', h ++ new) ∧
    Resource.constructor c' = Resource.constructor c ∧
    Resource.isDestroyed c' = Resource.isDestroyed c ∧
    List.length vs = List.length props ∧
    Resource.changes c'
    = Resource.changes c ++ zip_with PropertySet props vs ∧
    ∀ p, p ∈ props → duplicates h (h ++ new) (Resource.get source p) (Resource.get c' p).
Proof.
  induction props as [|q props IH] using rev_ind.
  - exists c, [], []. rewrite !app_nil_r. split; [done|]. split; [done|].
    split; [done|]. split; [done|]. split; [done|].
    intros p Hp. by apply elem_of_nil in Hp.
  - destruct IH as (c' & new & vs & Hfold & Hcons & Hdest & Hlen & Hch & Hdup).
    rewrite fold_left_app, Hfold. cbn [fold_left].
    destruct (duplicateProperty_spec source c' h new q) as (v' & ext & -> & Hq).
    exists (Resource.set c' q v'), (new ++ ext), (vs ++ [v']). rewrite app_assoc.
    split; [done|]. split; [done|]. split; [done|].
    split; [by rewrite !length_app, Hlen|]. split.
    { simpl. rewrite Hch, zip_with_app by done. by rewrite <- app_assoc. }
    intros p Hp. destruct (decide (q = p)) as [->|Hne].
    + by rewrite get_set_eq.
    + rewrite get_set_ne by done. apply duplicates_grow, Hdup.
      apply elem_of_app in Hp as [Hp|Hp]; [done|].
      by apply list_elem_of_singleton in Hp.
Qed.

Lemma duplicateProperty_sets (source c : Resource.t) (h : heap) (q : string) :
  ∃ v h', Resource.duplicateProperty source (c, h) q = (Resource.set c q v, h').
Proof.
  unfold Resource.duplicateProperty.
  match goal with |- context [let (_, _) := ?x in _] => destruct x as [v h'] end.
  by eexists _, _.
Qed.

Lemma duplicateProperties_frame (source : Resource.t) (props : list string)
    (c : Resource.t) (h : heap) (p : string) :
  p ∉ props →
  Resource.get (fold_left (Resource.duplicateProperty source) props (c, h)).1 p
  = Resource.get c p.
Proof.
  revert c h. induction props as [|q props IH]; intros c h Hp; [done|].
  apply not_elem_of_cons in Hp as [Hne Hp]. cbn [fold_left].
  destruct (duplicateProperty_sets source c h q) as (v & h' & ->).
  rewrite IH by done. by rewrite get_set_ne.
Qed.

(** C5, amended.  For a [tidy] resource of a type that declares
    [resourceProperties], all of them and the id field [data_name]s, whose
    new instances are [tidy], and whose declared properties hold
    [duplicable] values, [copy] returns a new instance of the same type:
    one that has not been torn down, whatever the source, whose changes are
    those of the copying alone (a batch of one assignment per declared
    property, then the assignment of the id) and whose other properties are
    the defaults of the type.  [copy] leaves
    the store of the source as it was, gives the copy the id of the source,
    and gives every declared property other than the id field a duplicate
    one level deep of the source's value: the value itself when it is
    neither an array nor an object, and otherwise a new array with the same
    elements or a new object with the same defined properties.  The new
    array or object is not the source's, so that writing to it leaves the
    source's as it was; what its elements refer to stays shared. *)
Theorem copy_duplicates_one_level (r : Resource.t) (h : heap) (props : list string) :
  Resource.resourceProperties (Resource.constructor r) = Some props →
  data_names props →
  data_name (Resource.resourceIdField (Resource.constructor r)) = true →
  tidy r →
  tidy (Resource.create (Resource.constructor r)) →
  (∀ p, p ∈ props → duplicable h (Resource.get r p)) →
  let idField := Resource.resourceIdField (Resource.constructor r) in
  ∃ c new,
    Resource.copy r h = Normal (c, h ++ new) ∧
    Resource.constructor c = Resource.constructor r ∧
    Resource.isDestroyed c = false ∧
    (∃ vs, List.length vs = List.length props ∧
           Resource.changes c
           = BeginPropertyChanges :: zip_with PropertySet props vs
             ++ [EndPropertyChanges; PropertySet idField (Resource.get r idField)]) ∧
    (∀ p, data_name p = true → p ∉ props → p ≠ idField →
       Resource.get c p
       = default VUndefined (Resource.prototype (Resource.constructor r) !! p)) ∧
    Resource.get c idField = Resource.get r idField ∧
    (∀ p, p ∈ props → p ≠ idField →
       duplicates h (h ++ new) (Resource.get r p) (Resource.get c p)) ∧
    (∀ p l l' cell cell',
       p ∈ props → p ≠ idField →
       Resource.get r p = VRef l → h !! l = Some cell →
       Resource.get c p = VRef l' →
       l' ≠ l ∧ (<[l' := cell']> (h ++ new)) !! l = Some cell).
Proof.
  intros Hprops _ _ _ _ _ idField. unfold Resource.copy, Resource.duplicateProperties.
  simpl. rewrite Hprops.
  pose proof (duplicateProperties_frame r props
                (Resource.notify (Resource.create (Resource.constructor r))
                   BeginPropertyChanges) h) as Hframe.
  destruct (duplicateProperties_loop r
              (Resource.notify (Resource.create (Resource.constructor r))
                 BeginPropertyChanges) h props)
    as (c' & new & vs & Hfold & Hcons & Hdest & Hlen & Hch & Hdup).
  rewrite Hfold in Hframe |- *. simpl in Hframe.
  eexists _, new. split; [done|]. split; [done|]. split; [done|].
  split.
  { exists vs. split; [done|]. simpl. rewrite Hch. simpl.
    by rewrite <- !app_assoc. }
  split.
  { intros p _ Hp Hne. rewrite get_set_ne by done. rewrite get_notify.
    by rewrite Hframe. }
  split; [apply get_set_eq|].
  set (c := Resource.set (Resource.notify c' EndPropertyChanges) idField
              (Resource.get r idField)).
  assert (∀ p, p ∈ props → p ≠ idField →
            duplicates h (h ++ new) (Resource.get r p) (Resource.get c p)) as Hall.
  { intros p Hp Hne. unfold c. rewrite get_set_ne by done.
    rewrite get_notify. by apply Hdup. }
  split; [exact Hall|].
  intros p l l' cell cell' Hp Hne Hr Hl Hc. fold idField c in Hc.
  specialize (Hall p Hp Hne). unfold duplicates in Hall. rewrite Hr, Hl in Hall.
  assert (l < List.length h)%nat as Hlt by (by eapply lookup_lt_Some).
  assert (List.length h ≤ l')%nat as Hge.
  { destruct cell; destruct Hall as (l0 & Heq & Hge & _);
      rewrite Hc in Heq; by injection Heq as ->. }
  split; [lia|].
  rewrite list_lookup_insert_ne by lia. by apply lookup_app_l_Some.
Qed.

(** *** The properties at work on the examples *)

Lemma contact_names : data_names ["first_name"; "tags"].
Proof. repeat constructor. Qed.

Lemma new_contact_is_tidy : tidy (Resource.create Sample.Contact).
Proof. by apply map_Forall_singleton. Qed.

Lemma with_field_tidy (r : Resource.t) (k : string) (v : value) :
  tidy r → data_name k = true → tidy (Sample.with_field r k v).
Proof. intros Hr Hk. by apply map_Forall_insert_2. Qed.

Lemma ada_is_tidy : tidy Sample.ada.
Proof. repeat apply with_field_tidy; try reflexivity. exact new_contact_is_tidy. Qed.

Lemma ada7_is_tidy : tidy Sample.ada7.
Proof. apply with_field_tidy; [exact ada_is_tidy | reflexivity]. Qed.

Lemma contact_has_no_prop : ¬ has_method (Resource.create Sample.Contact) "prop".
Proof. intros Hm. vm_compute in Hm. discriminate Hm. Qed.

Lemma ada_has_no_prop : ¬ has_method Sample.ada "prop".
Proof. intros Hm. vm_compute in Hm. discriminate Hm. Qed.

(** The elements [{first_name: "Bob"}] and [{first_name: "Cy"}] of the
    list of contacts. *)
Lemma one_name_is_plain (h : heap) (l : loc) (v : value) :
  h !! l = Some (CObj [("first_name", v)]) → plain_object h (VRef l).
Proof.
  intros Hl. unfold plain_object, own_props. rewrite Hl. split; [|split].
  - repeat constructor.
  - apply NoDup_singleton.
  - intros x Hx. apply list_elem_of_singleton in Hx. discriminate Hx.
Qed.

Lemma bob_is_plain : plain_object Sample.list_store (VRef 2%nat).
Proof. by apply (one_name_is_plain _ _ (VStr "Bob")). Qed.

Lemma listed_contacts_are_plain :
  Forall (plain_object Sample.list_store) [VRef 2%nat; VRef 3%nat].
Proof.
  constructor; [exact bob_is_plain|]. constructor; [|constructor].
  by apply (one_name_is_plain _ _ (VStr "Cy")).
Qed.

Lemma deserialize_restores_nested_witness :
  ∃ ret h',
    Resource.serialize Sample.ada Sample.ada_store = Normal (ret, h') ∧
    let restored := Resource.deserialize (Resource.create Sample.Contact) h'
                      (member h' ret "contact") in
    restored.2 = None ∧
    ∀ p, p ∈ ["first_name"; "tags"] → Resource.get restored.1 p = Resource.get Sample.ada p.
Proof.
  apply (deserialize_restores_nested Sample.ada Sample.ada_store ["first_name"; "tags"]).
  - reflexivity.
  - exact contact_names.
  - exact ada_is_tidy.
  - exact new_contact_is_tidy.
  - exact contact_has_no_prop.
  - exact ada_has_no_prop.
Defined.

Lemma validate_gates_save_witness :
  Resource.saveResource (H := Sample.host) (Resource.create Sample.Checked) Sample.empty_world
  = Normal (Resource.RejectedAtOnce (VStr "first_name is required"), Sample.empty_world) ∧
  ∃ body h',
    Resource.serialize Sample.ada (store Sample.empty_world) = Normal (body, h') ∧
    (∀ text, JSON_stringify (JSON := Sample.host) h' body = Normal text →
       ∃ w' p, Resource.saveResource (H := Sample.host) Sample.ada Sample.empty_world
               = Normal (Resource.Pending, w') ∧
               sent w' = sent Sample.empty_world ++ outgoing Sample.ada p ∧
               data p = VStr text) ∧
    (∀ e, JSON_stringify (JSON := Sample.host) h' body = Throw e →
     Resource.saveResource (H := Sample.host) Sample.ada Sample.empty_world
     = Throw e).
Proof.
  split.
  - apply (proj1 (validate_gates_save (H := Sample.host)
                    (Resource.create Sample.Checked) Sample.empty_world)
             Sample.require_first_name).
    + reflexivity.
    + reflexivity.
  - apply (proj2 (validate_gates_save (H := Sample.host) Sample.ada Sample.empty_world)
             (or_introl eq_refl) ["first_name"; "tags"]).
    + reflexivity.
    + exact contact_names.
    + reflexivity.
    + exact ada_is_tidy.
    + exact I.
Defined.

Lemma ajaxPromise_normalizes_errors_witness :
  Ember.ajaxPromise_settle (H := Sample.host) Sample.unprocessable_store
    (Failure Sample.unprocessable)
  = (Rejected (VRef 1%nat),
     Sample.unprocessable_store ++ [CObj [("message", VStr "bad"); ("status", VNum 422)]]).
Proof.
  apply (proj1 (proj1 (proj2 (proj2 (ajaxPromise_normalizes_errors (H := Sample.host)
                                       Sample.unprocessable_store Sample.unprocessable))
                         eq_refl)
                  "Content-Type: application/json" eq_refl eq_refl)
           1%nat
           (Sample.unprocessable_store ++ [CObj [("message", VStr "bad")]])
           (CObj [("message", VStr "bad")])).
  - reflexivity.
  - reflexivity.
Defined.

Lemma ada7_values_are_duplicable (p : string) :
  p ∈ ["first_name"; "tags"] → duplicable Sample.ada_store (Resource.get Sample.ada7 p).
Proof.
  intros Hp. apply elem_of_cons in Hp as [->|Hp]; [exact I|].
  apply list_elem_of_singleton in Hp as ->. reflexivity.
Qed.

Lemma copy_duplicates_one_level_witness :
  ∃ c new,
    Resource.copy Sample.ada7 Sample.ada_store = Normal (c, Sample.ada_store ++ new) ∧
    Resource.constructor c = Sample.Contact ∧
    Resource.isDestroyed c = false ∧
    (∃ vs, List.length vs = 2%nat ∧
           Resource.changes c
           = BeginPropertyChanges :: zip_with PropertySet ["first_name"; "tags"] vs
             ++ [EndPropertyChanges; PropertySet "id" (VNum 7)]) ∧
    (∀ p, data_name p = true → p ∉ ["first_name"; "tags"] → p ≠ "id" →
       Resource.get c p = default VUndefined (Resource.prototype Sample.Contact !! p)) ∧
    Resource.get c "id" = VNum 7 ∧
    (∀ p, p ∈ ["first_name"; "tags"] → p ≠ "id" →
       duplicates Sample.ada_store (Sample.ada_store ++ new)
         (Resource.get Sample.ada7 p) (Resource.get c p)) ∧
    (∀ p l l' cell cell',
       p ∈ ["first_name"; "tags"] → p ≠ "id" →
       Resource.get Sample.ada7 p = VRef l → Sample.ada_store !! l = Some cell →
       Resource.get c p = VRef l' →
       l' ≠ l ∧ (<[l' := cell']> (Sample.ada_store ++ new)) !! l = Some cell).
Proof.
  apply (copy_duplicates_one_level Sample.ada7 Sample.ada_store ["first_name"; "tags"]).
  - reflexivity.
  - exact contact_names.
  - reflexivity.
  - exact ada7_is_tidy.
  - exact new_contact_is_tidy.
  - exact ada7_values_are_duplicable.
Defined.


Lemma save_sends_post_or_put_witness :
  (∃ body h',
     Resource.serialize Sample.ada7 Sample.ada_store = Normal (body, h') ∧
     ∀ text, JSON_stringify (JSON := Sample.host) h' body = Normal text →
       ∃ p, Resource.saveResource (H := Sample.host) Sample.ada7 Sample.empty_world =
              Normal (Resource.Pending,
                      {| store := h';
                         sent := sent Sample.empty_world ++ outgoing Sample.ada7 p |}) ∧
            type p = "PUT" ∧
            data p = VStr text) ∧
  (∀ self h json,
     (truthy json = false →
      tidy self →
      Resource.saveResource_settle (H := Sample.host) self h (Success json)
      = (Resolved self, h)) ∧
     (truthy json = true →
      tidy self →
      Resource.isDestroyed self = false →
      ¬ has_method self "prop" →
      plain_object h json →
      ∃ self', Resource.saveResource_settle (H := Sample.host) self h (Success json)
               = (Resolved self', h) ∧
               self' = (Resource.deserialize self h json).1 ∧
               Resource.constructor self' = Resource.constructor self ∧
               ∀ k v, (k, v) ∈ own_props h json → Resource.get self' k = v)).
Proof.
  apply (save_sends_post_or_put (H := Sample.host) Sample.ada7 Sample.empty_world
           ["first_name"; "tags"]).
  - exact I.
  - reflexivity.
  - exact contact_names.
  - reflexivity.
  - exact ada7_is_tidy.
  - exact I.
Defined.

Lemma findAll_replaces_content_witness :
  let fresh json :=
    (Resource.deserialize (Resource.create Sample.Contact) Sample.list_store json).1 in
  (∃ ctl',
     ResourceController.findAll_settle (H := Sample.host) Sample.contacts Sample.list_store
       (Success (VRef 4%nat)) =
       (Resolved (ctl', Some (map fresh [VRef 2%nat; VRef 3%nat]),
                  map Resource.destroy [Sample.ada7]), Sample.list_store) ∧
     ResourceController.findAll_then Sample.contacts Sample.list_store (VRef 4%nat) =
       Normal (ctl', Some (map fresh [VRef 2%nat; VRef 3%nat]),
               map Resource.destroy [Sample.ada7]) ∧
     ResourceController.content ctl' = Some (map fresh [VRef 2%nat; VRef 3%nat])) ∧
  (∀ a b, [VRef 2%nat; VRef 3%nat] = [a; b] →
     ∃ ctl', ResourceController.findAll_settle (H := Sample.host) Sample.contacts
               Sample.list_store (Success (VRef 4%nat)) =
               (Resolved (ctl', Some [fresh a; fresh b], map Resource.destroy [Sample.ada7]),
                Sample.list_store)) ∧
  (∀ a, a ∈ [VRef 2%nat; VRef 3%nat] →
     Resource.constructor (fresh a) = Sample.Contact ∧
     Resource.isDestroyed (fresh a) = false ∧
     ∀ k v, (k, v) ∈ own_props Sample.list_store a → Resource.get (fresh a) k = v).
Proof.
  apply (findAll_replaces_content (H := Sample.host) Sample.contacts Sample.list_store 4%nat
           [VRef 2%nat; VRef 3%nat] []).
  - reflexivity.
  - constructor; [exact ada7_is_tidy | constructor].
  - exact new_contact_is_tidy.
  - exact contact_has_no_prop.
  - exact listed_contacts_are_plain.
Defined.

Lemma save_without_body_leaves_resource_witness :
  Resource.saveResource_settle (H := Sample.host) Sample.ada Sample.ada_store
    (Success VUndefined) = (Resolved Sample.ada, Sample.ada_store) ∧
  Resource.saveResource_then Sample.ada Sample.ada_store VUndefined = (Sample.ada, None) ∧
  (∀ h' json', Resource.changes (Resource.deserialize Sample.ada h' json').1
               ≠ Resource.changes Sample.ada).
Proof.
  apply (save_without_body_leaves_resource (H := Sample.host)
           Sample.ada Sample.ada_store VUndefined).
  reflexivity.
Defined.

(** ** Further properties of the adapter *)




(** [complete] returns unless the body is to be turned into text and has
    none. *)
Lemma complete_returns `{JSON} {T : Type} `{ResourceAdapter T}
    (this : T) (p : params) (h : heap) :
  (truthy (contentType p) = false → type p = "PUT" ∨ type p = "POST" →
   typeof (data p) = "object" → ∃ text, JSON_stringify h (data p) = Normal text) →
  ∃ q, complete this p h = Normal q.
Proof.
  intros Htext. pose proof (complete_spec this p h) as Hspec. cbv zeta in Hspec.
  destruct (truthy (contentType p)) eqn:Hct; simpl in Hspec; [by eexists|].
  destruct (bool_decide (type p = "PUT") || bool_decide (type p = "POST")) eqn:Hty;
    [|by eexists].
  destruct (bool_decide (typeof (data p) = "object")) eqn:Hobj; [|by eexists].
  apply bool_decide_eq_true_1 in Hobj.
  assert (type p = "PUT" ∨ type p = "POST") as Hty'.
  { apply orb_true_iff in Hty as [Hty|Hty]; apply bool_decide_eq_true_1 in Hty; auto. }
  destruct (Htext eq_refl Hty' Hobj) as [text Htext'].
  rewrite Htext' in Hspec. by eexists.
Qed.


(** X2.  [_resourceRequest] turns the body into JSON text exactly when the
    caller gave no [contentType], the method is [PUT] or [POST] (in capitals)
    and the body is an object or [null]: the descriptor then carries the
    text, and when [JSON.stringify] raises the call raises the same
    exception and nothing goes out.  In every other case the body is passed
    on as it is. *)
Theorem body_stringified_only_for_put_and_post `{JSON} {T : Type} `{ResourceAdapter T}
    (this : T) (p : params) (h : heap) :
  (truthy (contentType p) = false → type p = "PUT" ∨ type p = "POST" →
   typeof (data p) = "object" →
   (∀ text, JSON_stringify h (data p) = Normal text →
      ∃ q, complete this p h = Normal q ∧ data q = VStr text) ∧
   (∀ e, JSON_stringify h (data p) = Throw e →
      complete this p h = Throw e ∧
      ∀ w, store w = h → _resourceRequest this p w = Throw e)) ∧
  (truthy (contentType p) = true ∨ (type p ≠ "PUT" ∧ type p ≠ "POST")
   ∨ typeof (data p) ≠ "object" →
   ∃ q, complete this p h = Normal q ∧ data q = data p).
Proof.
  pose proof (complete_spec this p h) as Hspec. cbv zeta in Hspec. split.
  - intros Hct Hty Hobj. rewrite Hct in Hspec. simpl in Hspec.
    assert (bool_decide (type p = "PUT") || bool_decide (type p = "POST") = true) as Hty'.
    { destruct Hty as [-> | ->]; done. }
    rewrite Hty', bool_decide_eq_true_2 in Hspec by done. split.
    + intros text Htext. rewrite Htext in Hspec. by eexists.
    + intros e Hraise. rewrite Hraise in Hspec. split; [done|].
      intros w <-. by apply resourceRequest_raises.
  - intros Hcase. destruct (truthy (contentType p)) eqn:Hct; simpl in Hspec;
      [by eexists|].
    destruct Hcase as [?|[[Hput Hpost]|Hobj]]; [done| |].
    + rewrite (bool_decide_eq_false_2 _ Hput), (bool_decide_eq_false_2 _ Hpost) in Hspec.
      simpl in Hspec. by eexists.
    + rewrite (bool_decide_eq_false_2 _ Hobj) in Hspec.
      destruct (bool_decide (type p = "PUT") || bool_decide (type p = "POST"));
        simpl in Hspec; by eexists.
Qed.

(** X3.  A URL the caller puts in the descriptor is the one requested; the
    URL of the resource or controller is used only when the descriptor has
    none or an empty one.  The URL is chosen first, and a descriptor that
    is completed carries it. *)
Theorem descriptor_url_overrides `{JSON} {T : Type} `{ResourceAdapter T}
    (this : T) (p : params) (h : heap) :
  (truthy (url p) = true → url (addressed this p h) = url p) ∧
  (truthy (url p) = false → url (addressed this p h) = this_resourceUrl this h) ∧
  (∀ q, complete this p h = Normal q → url q = url (addressed this p h)) ∧
  ((truthy (contentType p) = false → type p = "PUT" ∨ type p = "POST" →
    typeof (data p) = "object" → ∃ text, JSON_stringify h (data p) = Normal text) →
   ∃ q, complete this p h = Normal q ∧
        (truthy (url p) = true → url q = url p) ∧
        (truthy (url p) = false → url q = this_resourceUrl this h)).
Proof.
  assert (truthy (url p) = true → url (addressed this p h) = url p) as Hgiven.
  { intros Hurl. unfold addressed. simpl. by rewrite Hurl. }
  split; [exact Hgiven|]. split; [apply addressed_url|]. split.
  - intros q Hq. by destruct (complete_keeps this p q h Hq) as (-> & _).
  - intros Htext. destruct (complete_returns this p h Htext) as [q Hq].
    exists q. split; [done|].
    destruct (complete_keeps this p q h Hq) as (-> & _).
    split; [exact Hgiven | apply addressed_url].
Qed.

(** X4.  A response announced as JSON whose text parses to [null] rejects
    the promise with a [TypeError] (writing [status] on [null] raises), so
    the HTTP status is lost; a text that parses to a number, a string or a
    boolean rejects with that value, which cannot carry a [status]. *)
Theorem json_body_that_is_no_object `{JSON} (h h' : heap) (e : failure)
    (headers : string) (v : value) :
  truthy (responseJSON e) = false →
  getAllResponseHeaders e = Some headers →
  contains headers "Content-Type: application/json" = true →
  JSON_parse h (responseText e) = Some (v, h') →
  (v = VNull → Ember.ajaxPromise_settle h (Failure e) = (Rejected TypeError, h')) ∧
  ((∃ n, v = VNum n) ∨ (∃ s, v = VStr s) ∨ (∃ b, v = VBool b) →
   Ember.ajaxPromise_settle h (Failure e) = (Rejected v, h')).
Proof.
  intros Hjson Hheaders Hct Hparse.
  unfold Ember.ajaxPromise_settle, Ember.ajaxPromise_catch.
  rewrite Hjson, Hheaders, Hct, Hparse. split.
  - by intros ->.
  - intros [[n ->]|[[s ->]|[b ->]]]; done.
Qed.

Lemma member_object (h : heap) (l : loc) (props : list (string * value)) (k : string) :
  h !! l = Some (CObj props) → member h (VRef l) k = obj_get props k.
Proof. intros Hl. unfold member. by rewrite Hl. Qed.

(** X5.  When the error body is an object, the promise is rejected with
    that very object, changed in place: its [status] is the HTTP status,
    also when the body had a [status] of its own, every other property is
    as it was, and nothing else in the store changes.  This holds for a
    body the transport has parsed and for one parsed from the response
    text. *)
Theorem status_written_on_error_object `{JSON} (h : heap) (e : failure) :
  (∀ l props, responseJSON e = VRef l → h !! l = Some (CObj props) →
     ∃ h', Ember.ajaxPromise_settle h (Failure e) = (Rejected (VRef l), h') ∧
           member h' (VRef l) "status" = status e ∧
           (∀ k, k ≠ "status" → member h' (VRef l) k = member h (VRef l) k) ∧
           (∀ l', l' ≠ l → h' !! l' = h !! l')) ∧
  (∀ headers l h1 props,
     truthy (responseJSON e) = false →
     getAllResponseHeaders e = Some headers →
     contains headers "Content-Type: application/json" = true →
     JSON_parse h (responseText e) = Some (VRef l, h1) → h1 !! l = Some (CObj props) →
     ∃ h', Ember.ajaxPromise_settle h (Failure e) = (Rejected (VRef l), h') ∧
           member h' (VRef l) "status" = status e ∧
           (∀ k, k ≠ "status" → member h' (VRef l) k = member h1 (VRef l) k) ∧
           (∀ l', l' ≠ l → h' !! l' = h1 !! l')).
Proof.
  assert (∀ (h0 : heap) l props,
            h0 !! l = Some (CObj props) →
            let h' := <[l := CObj (obj_set props "status" (status e))]> h0 in
            member h' (VRef l) "status" = status e ∧
            (∀ k, k ≠ "status" → member h' (VRef l) k = member h0 (VRef l) k) ∧
            (∀ l', l' ≠ l → h' !! l' = h0 !! l')) as Hwrite.
  { intros h0 l props Hl h'.
    assert (h' !! l = Some (CObj (obj_set props "status" (status e)))) as Hl'.
    { apply list_lookup_insert_eq. by eapply lookup_lt_Some. }
    split; [|split].
    - rewrite (member_object h' l _ _ Hl'). unfold obj_get.
      by rewrite obj_find_set_eq.
    - intros k Hk. rewrite (member_object h' l _ _ Hl'), (member_object h0 l _ _ Hl).
      unfold obj_get. by rewrite obj_find_set_ne.
    - intros l' Hne. unfold h'. by rewrite list_lookup_insert_ne. }
  split.
  - intros l props Hjson Hl. eexists. split; [|by apply Hwrite].
    unfold Ember.ajaxPromise_settle, Ember.ajaxPromise_catch. rewrite Hjson.
    cbn [truthy]. by rewrite (throw_with_status_object h l (CObj props)).
  - intros headers l h1 props Hjson Hheaders Hct Hparse Hl.
    eexists. split; [|by apply Hwrite].
    unfold Ember.ajaxPromise_settle, Ember.ajaxPromise_catch.
    rewrite Hjson, Hheaders, Hct, Hparse.
    by rewrite (throw_with_status_object h1 l (CObj props)).
Qed.

(** ** Further properties of resources *)

(** X6.  For a type that declares [resourceProperties], [serialize] leaves
    every array and object of the store as it was and returns a new object
    with a single key, the resource name ([undefined] as text when the type
    has none), under which a new object holds the declared properties and
    nothing else: each declared name once, with the value [get] gives, and
    no other name, so that the id is not sent unless it is declared. *)
Theorem serialize_holds_declared_properties_only (r : Resource.t) (h : heap)
    (props : list string) :
  Resource.resourceProperties (Resource.constructor r) = Some props →
  let name := match Resource.resourceName (Resource.constructor r) with
              | Some s => s
              | None => "undefined"
              end in
  ∃ ret inner h',
    Resource.serialize r h = Normal (ret, h') ∧
    (∀ l c, h !! l = Some c → h' !! l = Some c) ∧
    own_props h' ret = [(name, inner)] ∧
    NoDup (own_props h' inner).*1 ∧
    (∀ k, k ∈ (own_props h' inner).*1 ↔ k ∈ props) ∧
    (∀ k, member h' inner k = if decide (k ∈ props) then Resource.get r k else VUndefined).
Proof.
  intros Hprops name.
  assert (ToString h (Resource.opt_value (Resource.resourceName (Resource.constructor r)))
          = name) as Hname.
  { unfold name. destruct (Resource.resourceName _); simpl; [apply ToString_str|].
    unfold ToString. by destruct (List.length h). }
  eexists _, (VRef (S (List.length h))), _. split; [by apply serialize_spec|].
  rewrite Hname.
  assert (∀ a b, own_props (h ++ [a; CObj b]) (VRef (S (List.length h))) = b) as Hown.
  { intros a b. unfold own_props. by rewrite heap_lookup_1. }
  split; [|split; [|split; [|split]]].
  - intros l c Hl. by apply lookup_app_l_Some.
  - unfold own_props. by rewrite heap_lookup_0.
  - rewrite Hown. apply serialized_NoDup. constructor.
  - intros k. rewrite Hown. split.
    + intros Hk. apply obj_find_key in Hk as [v Hv].
      rewrite serialized_find in Hv. by destruct (decide (k ∈ props)).
    + intros Hk. destruct (decide (k ∈ (serialized r props []).*1)) as [|Hnin]; [done|].
      apply obj_find_not_key in Hnin. rewrite serialized_find in Hnin.
      by rewrite decide_True in Hnin.
  - intros k. rewrite (member_object _ (S (List.length h)) (serialized r props []))
      by apply heap_lookup_1.
    unfold obj_get. rewrite serialized_find. by destruct (decide (k ∈ props)).
Qed.

(** X7.  For a type that declares no [resourceProperties], [serialize] and
    [copy] raise a [TypeError], and so does [saveResource] once validation
    has passed, before anything is sent; [duplicateProperties] raises too
    when it is given no list of its own. *)
Theorem undeclared_properties_raise `{JSON} (r : Resource.t) (h : heap) (w : world) :
  Resource.resourceProperties (Resource.constructor r) = None →
  Resource.serialize r h = Throw TypeError ∧
  Resource.copy r h = Throw TypeError ∧
  (∀ source, Resource.duplicateProperties r source None h = Throw TypeError) ∧
  (passes_validation r (store w) → Resource.saveResource r w = Throw TypeError).
Proof.
  intros Hprops. split; [by apply serialize_throws|]. split; [|split].
  - unfold Resource.copy, Resource.duplicateProperties. simpl. by rewrite Hprops.
  - intros source. unfold Resource.duplicateProperties. simpl. by rewrite Hprops.
  - intros Hpass. unfold Resource.saveResource. unfold passes_validation in Hpass.
    assert (truthy match Resource.validate (Resource.constructor r) with
                   | Some validate => validate (Resource.fields r) (store w)
                   | None => VUndefined
                   end = false) as ->.
    { by destruct (Resource.validate _). }
    by rewrite serialize_throws.
Qed.

(** X8.  Given a [plain_object], [deserialize] returns, gives the resource
    the value of every key of the object and leaves every other property,
    the type and the teardown flag of the resource as they were, provided
    the resource is [tidy], has not been torn down and has no method called
    [prop]. *)
Theorem deserialize_assigns_keys_and_keeps_rest (r : Resource.t) (h : heap) (json : value) :
  plain_object h json →
  tidy r →
  Resource.isDestroyed r = false →
  ¬ has_method r "prop" →
  (Resource.deserialize r h json).2 = None ∧
  let r' := (Resource.deserialize r h json).1 in
  (∀ k v, (k, v) ∈ own_props h json → Resource.get r' k = v) ∧
  (∀ k, data_name k = true → k ∉ (own_props h json).*1 →
        Resource.get r' k = Resource.get r k) ∧
  Resource.constructor r' = Resource.constructor r ∧
  Resource.isDestroyed r' = false.
Proof.
  intros Hplain _ Hlive Hr.
  destruct (deserialize_plain r h json Hplain Hr) as [Hret Hget].
  destruct Hplain as (_ & Hnd & _).
  split; [exact Hret|]. intros r'. split; [|split; [|split]].
  - intros k v Hkv. unfold r'. rewrite Hget. by rewrite (obj_find_NoDup _ k v Hnd Hkv).
  - intros k _ Hk. unfold r'. rewrite Hget. by rewrite (obj_find_not_key _ k Hk).
  - apply deserialize_constructor.
  - unfold r'. by rewrite deserialize_isDestroyed.
Qed.

(** X9.  [deserialize] delivers its assignments as one batch: given a
    [plain_object], on a [tidy] resource that has not been torn down and
    has no method called [prop], it calls [beginPropertyChanges], then [set] once
    per key of the input, in the order of the keys, then
    [endPropertyChanges], and returns.  For an input without keys the batch
    is empty. *)
Theorem deserialize_batches_changes (r : Resource.t) (h : heap) (json : value) :
  plain_object h json →
  tidy r →
  Resource.isDestroyed r = false →
  ¬ has_method r "prop" →
  (Resource.deserialize r h json).2 = None ∧
  Resource.changes (Resource.deserialize r h json).1
  = Resource.changes r
    ++ BeginPropertyChanges
       :: map (fun kv => PropertySet kv.1 kv.2) (own_props h json)
    ++ [EndPropertyChanges].
Proof.
  intros (Hnames & _ & Hprop) _ _ Hr.
  rewrite (deserialize_returns r h json (data_names_shadow_nothing _ Hnames)).
  split; [done|]. simpl.
  rewrite fold_deserialize_sets; [|done..]. simpl.
  by rewrite <- !app_assoc.
Qed.

(** X10.  Given [null], [undefined], a number or a boolean, [deserialize]
    does not raise and changes no property of the resource, whatever its
    methods; it still opens and closes a batch of changes. *)
Theorem deserialize_of_no_object (r : Resource.t) (h : heap) (json : value) :
  json = VNull ∨ json = VUndefined ∨ (∃ n, json = VNum n) ∨ (∃ b, json = VBool b) →
  (Resource.deserialize r h json).2 = None ∧
  Resource.fields (Resource.deserialize r h json).1 = Resource.fields r ∧
  Resource.changes (Resource.deserialize r h json).1
  = Resource.changes r ++ [BeginPropertyChanges; EndPropertyChanges].
Proof.
  intros [->|[->|[[n ->]|[b ->]]]]; unfold Resource.deserialize; simpl;
    by rewrite <- app_assoc.
Qed.

Lemma isEmpty_false (h : heap) (v : value) :
  ¬ unset_or_empty h v → isEmpty h v = false.
Proof.
  intros Hv. destruct (isEmpty h v) eqn:He; [|done].
  by apply isEmpty_spec in He.
Qed.

(** X11.  A save creates the resource once: when the response to a save is
    a [plain_object] that holds a [scalar] that is not empty under the id
    field, and the resource is [tidy], has not been torn down and has no
    method called [prop], the resource the promise resolves with is no
    longer new and its URL ends in that id; a later save of it, in the same
    store, is a PUT to that URL, when its type declares
    [resourceProperties], all of them [data_name]s, and what it serializes
    to has a JSON text. *)
Theorem saved_resource_is_no_longer_new `{JSON} (r : Resource.t) (h : heap) (l : loc)
    (json : list (string * value)) (id : value) (props : list string) :
  h !! l = Some (CObj json) →
  plain_object h (VRef l) →
  tidy r →
  Resource.isDestroyed r = false →
  ¬ has_method r "prop" →
  (Resource.resourceIdField (Resource.constructor r), id) ∈ json →
  scalar id →
  ¬ unset_or_empty h id →
  Resource.resourceProperties (Resource.constructor r) = Some props →
  data_names props →
  ∃ r', Resource.saveResource_settle r h (Success (VRef l)) = (Resolved r', h) ∧
        Resource.isNew r' h = false ∧
        Resource._resourceUrl r' h
        = VStr (ToString h (Resource.opt_value (Resource.resourceUrl (Resource.constructor r)))
                ++ "/" ++ ToString h id)%string ∧
        ∀ w, store w = h → passes_validation r' h →
             ∃ body h',
               Resource.serialize r' h = Normal (body, h') ∧
               ∀ text, JSON_stringify h' body = Normal text →
                 ∃ p, Resource.saveResource r' w
                      = Normal (Resource.Pending,
                                {| store := h'; sent := sent w ++ outgoing r' p |}) ∧
                      type p = "PUT" ∧
                      url p = Resource._resourceUrl r' h' ∧
                      data p = VStr text.
Proof.
  intros Hl Hplain _ _ Hr Hid _ Hne Hprops _.
  destruct (deserialize_plain r h (VRef l) Hplain Hr) as [Hret Hget].
  exists (Resource.deserialize r h (VRef l)).1. split.
  { unfold Resource.saveResource_settle, Resource.saveResource_then.
    unfold Ember.ajaxPromise_settle, and_then, Resource.returned. simpl.
    by rewrite Hret. }
  assert (own_props h (VRef l) = json) as Hown.
  { unfold own_props. by rewrite Hl. }
  assert (Resource.constructor (Resource.deserialize r h (VRef l)).1
          = Resource.constructor r) as Hcons by apply deserialize_constructor.
  assert (Resource.get (Resource.deserialize r h (VRef l)).1
            (Resource.resourceIdField (Resource.constructor r)) = id) as Hgetid.
  { rewrite Hget, Hown. destruct Hplain as (_ & Hnd & _). rewrite Hown in Hnd.
    by rewrite (obj_find_NoDup json _ id Hnd Hid). }
  assert (Resource.isNew (Resource.deserialize r h (VRef l)).1 h = false) as Hnew.
  { unfold Resource.isNew, Resource._resourceId. rewrite Hcons, Hgetid.
    by apply isEmpty_false. }
  split; [done|]. split.
  - unfold Resource._resourceUrl, Resource._resourceId. rewrite Hcons, Hgetid.
    by rewrite isEmpty_false.
  - intros w Hw Hpass. subst h.
    assert (Resource.resourceProperties
              (Resource.constructor (Resource.deserialize r (store w) (VRef l)).1)
            = Some props) as Hprops' by (by rewrite Hcons).
    pose proof (serialize_spec _ (store w) props Hprops') as Hser.
    eexists _, _. split; [exact Hser|]. intros text Htext.
    pose proof (saveResource_spec _ w _ _ Hpass Hser eq_refl) as Hsave.
    rewrite Htext, Hnew in Hsave. by eexists.
Qed.

(** X12.  A copy carries the declared properties and the id, and nothing
    else: any other property of the source is absent from the copy, which
    has for it the default of the type, or [undefined]. *)
Theorem copy_drops_undeclared_properties (r c : Resource.t) (h h' : heap)
    (props : list string) :
  Resource.resourceProperties (Resource.constructor r) = Some props →
  Resource.copy r h = Normal (c, h') →
  ∀ p, p ∉ props → p ≠ Resource.resourceIdField (Resource.constructor r) →
       Resource.get c p
       = default VUndefined (Resource.prototype (Resource.constructor r) !! p).
Proof.
  intros Hprops Hcopy p Hp Hne.
  unfold Resource.copy, Resource.duplicateProperties in Hcopy.
  simpl in Hcopy. rewrite Hprops in Hcopy.
  destruct (fold_left _ props _) as [c' h0] eqn:Hfold.
  injection Hcopy as <- <-.
  rewrite get_set_ne by done. rewrite get_notify.
  pose proof (duplicateProperties_frame r props
                (Resource.notify (Resource.create (Resource.constructor r))
                   BeginPropertyChanges) h p Hp) as Hframe.
  rewrite Hfold in Hframe. exact Hframe.
Qed.

(** X13.  [duplicateProperties], given a list of [data_name]s under which
    the source holds [duplicable] values, on a resource that has not been
    torn down, both resources being [tidy], needs no [resourceProperties]:
    it returns, gives the resource a duplicate one level deep of each
    listed property of the source, leaves every other property of the
    resource as it was, and only adds to the store. *)
Theorem duplicateProperties_of_a_list (this source : Resource.t) (h : heap)
    (names : list string) :
  data_names names →
  tidy this →
  tidy source →
  Resource.isDestroyed this = false →
  (∀ p, p ∈ names → duplicable h (Resource.get source p)) →
  ∃ this' new,
    Resource.duplicateProperties this source (Some names) h = Normal (this', h ++ new) ∧
    Resource.constructor this' = Resource.constructor this ∧
    (∀ p, p ∈ names →
       duplicates h (h ++ new) (Resource.get source p) (Resource.get this' p)) ∧
    (∀ p, data_name p = true → p ∉ names → Resource.get this' p = Resource.get this p).
Proof.
  intros _ _ _ _ _. unfold Resource.duplicateProperties.
  destruct (duplicateProperties_loop source
              (Resource.notify this BeginPropertyChanges) h names)
    as (c' & new & vs & Hfold & Hcons & _ & _ & _ & Hdup).
  rewrite Hfold. eexists _, new. split; [done|]. split; [done|]. split.
  - intros p Hp. rewrite get_notify. by apply Hdup.
  - intros p _ Hp. rewrite get_notify.
    pose proof (duplicateProperties_frame source names
                  (Resource.notify this BeginPropertyChanges) h p Hp) as Hframe.
    by rewrite Hfold in Hframe.
Qed.

(** X14.  An id that is a number, zero included, or a string that is not
    empty makes a [tidy] resource an existing one: it is not new and its
    URL is the base URL, a slash and the id as text, in decimal for a
    [safe_integer].  A type without a base URL gets the text [undefined] in
    its place. *)
Theorem number_or_text_id_is_not_new (r : Resource.t) (h : heap) :
  tidy r →
  let id := Resource.get r (Resource.resourceIdField (Resource.constructor r)) in
  let base := match Resource.resourceUrl (Resource.constructor r) with
              | Some u => u
              | None => "undefined"
              end in
  (∀ n, id = VNum n → safe_integer n →
     Resource.isNew r h = false ∧
     Resource._resourceUrl r h = VStr (base ++ "/" ++ pretty n)%string) ∧
  (∀ s, id = VStr s → s ≠ "" →
     Resource.isNew r h = false ∧
     Resource._resourceUrl r h = VStr (base ++ "/" ++ s)%string).
Proof.
  intros _ id base.
  assert (ToString h (Resource.opt_value (Resource.resourceUrl (Resource.constructor r)))
          = base) as Hbase.
  { unfold base. destruct (Resource.resourceUrl _); simpl; [apply ToString_str|].
    unfold ToString. by destruct (List.length h). }
  unfold Resource.isNew, Resource._resourceUrl, Resource._resourceId. fold id.
  split.
  - intros n -> _. split; [done|]. simpl. by rewrite Hbase, ToString_num.
  - intros s -> Hs.
    assert (isEmpty h (VStr s) = false) as ->.
    { apply isEmpty_false. intros [?|[?|[[= ->]|[(?&?&?&?)|(?&?&?&?)]]]]; done. }
    split; [done|]. simpl. by rewrite Hbase, ToString_str.
Qed.

(** ** Further properties of controllers *)

Lemma mixin_resourceUrl_app (ms1 ms2 : list mixin) :
  ResourceController.mixin_resourceUrl (ms1 ++ ms2)
  = match ResourceController.mixin_resourceUrl ms2 with
    | Some u => Some u
    | None => ResourceController.mixin_resourceUrl ms1
    end.
Proof.
  induction ms1 as [|m ms1 IH]; simpl.
  - by destruct (ResourceController.mixin_resourceUrl ms2).
  - rewrite IH. by destruct (ResourceController.mixin_resourceUrl ms2).
Qed.

Lemma mixin_resourceUrl_none (ms : list mixin) :
  Forall (fun m => ∀ u, ¬ defines_resourceUrl m u) ms →
  ResourceController.mixin_resourceUrl ms = None.
Proof.
  induction 1 as [|m ms Hm _ IH]; [done|]. simpl. rewrite IH.
  destruct (properties m) as [props|] eqn:Hprops; [|done].
  destruct (props !! "resourceUrl") as [u|] eqn:Hu; [|done].
  destruct (decide (u = VUndefined)) as [->|Hne]; [done|].
  destruct (Hm u). by exists props.
Qed.

Lemma mixin_resourceUrl_defined (m : mixin) (u : value) :
  defines_resourceUrl m u → ResourceController.mixin_resourceUrl [m] = Some u.
Proof.
  intros (props & Hprops & Hu & Hne). simpl. rewrite Hprops, Hu.
  by destruct u.
Qed.

(** X15.  The URL of a controller is its own [resourceUrl] when it has
    one; otherwise the [resourceUrl] of its resource type; otherwise the one
    defined by a mixin of the resource type, the last such mixin in
    [PrototypeMixin.mixins] taking precedence; and [undefined] when no mixin
    defines one. *)
Theorem controller_url_precedence (ctl : ResourceController.t) (h : heap) :
  (∀ u, ResourceController.resourceUrl ctl = Some u →
        ResourceController._resourceUrl ctl h = VStr u) ∧
  (ResourceController.resourceUrl ctl = None →
   let rt := ResourceController.resourceType ctl in
   (∀ u, Resource.resourceUrl rt = Some u →
         ResourceController._resourceUrl ctl h = VStr u) ∧
   (Resource.resourceUrl rt = None →
    (∀ before m after u,
       Resource.mixins rt = before ++ m :: after →
       defines_resourceUrl m u →
       Forall (fun m' => ∀ u', ¬ defines_resourceUrl m' u') after →
       ResourceController._resourceUrl ctl h = u) ∧
    (Forall (fun m' => ∀ u', ¬ defines_resourceUrl m' u') (Resource.mixins rt) →
     ResourceController._resourceUrl ctl h = VUndefined))).
Proof.
  unfold ResourceController._resourceUrl. split.
  - by intros u ->.
  - intros Hown. cbv zeta. rewrite Hown. split.
    + by intros u ->.
    + intros ->. split.
      * intros before m after u -> Hm Hafter.
        change (m :: after) with ([m] ++ after).
        rewrite !mixin_resourceUrl_app, (mixin_resourceUrl_none after) by done.
        by rewrite (mixin_resourceUrl_defined m u).
      * intros Hnone. by rewrite mixin_resourceUrl_none.
Qed.

(** X16.  [clearAll()] tears down every resource the controller holds, each
    one keeping its properties, and [clearAll(true)] tears down none; either
    way the content is afterwards the empty list and the rest of the
    controller is as it was. *)
Theorem clearAll_empties_content (ctl : ResourceController.t) (keep : bool) :
  let held := default [] (ResourceController.content ctl) in
  let (ctl', torn_down) := ResourceController.clearAll ctl keep in
  ResourceController.content ctl' = Some [] ∧
  ResourceController.resourceType ctl' = ResourceController.resourceType ctl ∧
  ResourceController.resourceUrl ctl' = ResourceController.resourceUrl ctl ∧
  (keep = true → torn_down = []) ∧
  (keep = false →
   List.length torn_down = List.length held ∧
   ∀ i r, held !! i = Some r →
          ∃ r', torn_down !! i = Some r' ∧
                Resource.isDestroyed r' = true ∧
                Resource.fields r' = Resource.fields r ∧
                Resource.constructor r' = Resource.constructor r).
Proof.
  intros held. unfold ResourceController.clearAll.
  split; [done|]. split; [done|]. split; [done|]. split.
  - by intros ->.
  - intros ->. simpl.
    assert ((match ResourceController.content ctl with
             | Some c => map Resource.destroy c
             | None => []
             end) = map Resource.destroy held) as ->.
    { unfold held. by destruct (ResourceController.content ctl). }
    split; [by rewrite length_map|].
    intros i r Hi. exists (Resource.destroy r). split; [|done].
    change (map Resource.destroy held) with (Resource.destroy <$> held).
    by rewrite list_lookup_fmap, Hi.
Qed.

Lemma controller_with_content (ctl : ResourceController.t) (c : list Resource.t) :
  ResourceController.content ctl = Some c → ResourceController.set_content ctl c = ctl.
Proof. destruct ctl. simpl. by intros ->. Qed.

(** X17.  [loadAll], given a JSON array of [plain_object]s, adds to the
    content one new resource per element, deserialized from it, after the
    resources the controller already holds and in the order of the array;
    [load], given a [plain_object], adds one.  Neither removes or changes
    what is held.  A new instance of the resource type is to be [tidy] and
    to have no method called [prop]. *)
Theorem loadAll_appends (ctl : ResourceController.t) (h : heap) (l : loc)
    (items : list value) (named : list (string * value)) (held : list Resource.t) :
  ResourceController.content ctl = Some held →
  h !! l = Some (CArr items named) →
  tidy (Resource.create (ResourceController.resourceType ctl)) →
  ¬ has_method (Resource.create (ResourceController.resourceType ctl)) "prop" →
  Forall (plain_object h) items →
  let fresh json := (Resource.deserialize
                       (Resource.create (ResourceController.resourceType ctl)) h json).1 in
  (∃ ctl', ResourceController.loadAll ctl h (VRef l) = Normal ctl' ∧
           ResourceController.content ctl' = Some (held ++ map fresh items) ∧
           ResourceController.resourceType ctl' = ResourceController.resourceType ctl) ∧
  (∀ json, plain_object h json →
     (∃ ctl', ResourceController.load ctl h json = Normal ctl' ∧
              ResourceController.content ctl' = Some (held ++ [fresh json])) ∧
     ∀ k v, (k, v) ∈ own_props h json → Resource.get (fresh json) k = v).
Proof.
  intros Hheld Hl _ Hrt Hitems fresh. split.
  - rewrite <- (controller_with_content ctl held Hheld).
    rewrite (loadAll_array ctl h l items named held Hl)
      by (by apply plain_objects_return).
    by eexists.
  - intros json Hjson.
    destruct (deserialize_plain _ h json Hjson Hrt) as [Hret Hget]. split.
    + rewrite <- (controller_with_content ctl held Hheld).
      rewrite (load_returned ctl h json held Hret). by eexists.
    + intros k v Hkv. unfold fresh. rewrite Hget.
      destruct Hjson as (_ & Hnd & _).
      by rewrite (obj_find_NoDup _ k v Hnd Hkv).
Qed.

(** X18.  A response body that is no list: on [null] or [undefined],
    [loadAll] raises a [TypeError] and the promise of [findAll] is rejected
    with it; on a number or a boolean, [loadAll] loads nothing, and
    [findAll] has by then emptied the controller and torn down what it
    held, so that its promise resolves with an empty content. *)
Theorem findAll_on_a_body_that_is_no_list `{JSON} (ctl : ResourceController.t)
    (h : heap) (json : value) :
  (json = VNull ∨ json = VUndefined →
   ResourceController.loadAll ctl h json = Throw TypeError ∧
   ResourceController.findAll_settle ctl h (Success json) = (Rejected TypeError, h)) ∧
  ((∃ n, json = VNum n) ∨ (∃ b, json = VBool b) →
   ResourceController.loadAll ctl h json = Normal ctl ∧
   ∃ ctl', ResourceController.findAll_settle ctl h (Success json)
           = (Resolved (ctl', Some [],
                        map Resource.destroy (default [] (ResourceController.content ctl))),
              h) ∧
           ResourceController.content ctl' = Some []).
Proof.
  split.
  - intros [-> | ->]; done.
  - intros [[n ->] | [b ->]].
    + split; [done|]. exists (ResourceController.set_content ctl []). split; [|done].
      unfold ResourceController.findAll_settle, ResourceController.findAll_then.
      simpl. by destruct (ResourceController.content ctl).
    + split; [done|]. exists (ResourceController.set_content ctl []). split; [|done].
      unfold ResourceController.findAll_settle, ResourceController.findAll_then.
      simpl. by destruct (ResourceController.content ctl).
Qed.

(** ** Further properties of the operations *)


(** X20.  A failed request rejects the promise of every operation with the
    same reason, the one the adapter makes of the error, and leaves the
    store as the adapter left it: the handlers that [findResource],
    [saveResource] and [findAll] give to [then] are not run. *)
Theorem failure_rejects_every_operation `{JSON} (self : Resource.t)
    (ctl : ResourceController.t) (h : heap) (e : failure) :
  ∃ reason h',
    Ember.ajaxPromise_catch h e = (reason, h') ∧
    Resource.findResource_settle self h (Failure e) = (Rejected reason, h') ∧
    Resource.saveResource_settle self h (Failure e) = (Rejected reason, h') ∧
    Resource.destroyResource_settle h (Failure e) = (Rejected reason, h') ∧
    ResourceController.findAll_settle ctl h (Failure e) = (Rejected reason, h').
Proof.
  unfold Resource.findResource_settle, Resource.saveResource_settle,
    Resource.destroyResource_settle, ResourceController.findAll_settle,
    Ember.ajaxPromise_settle.
  destruct (Ember.ajaxPromise_catch h e) as [reason h']. by eexists _, _.
Qed.

(** X21.  Deserializing the same [plain_object] a second time changes no
    property: both calls return, and every property reads the same after
    two as after one, provided the resource is [tidy], has not been torn
    down and has no method called [prop]. *)
Theorem deserialize_twice_is_once (r : Resource.t) (h : heap) (json : value) :
  plain_object h json →
  tidy r →
  Resource.isDestroyed r = false →
  ¬ has_method r "prop" →
  let once := Resource.deserialize r h json in
  let twice := Resource.deserialize once.1 h json in
  once.2 = None ∧ twice.2 = None ∧
  ∀ k, Resource.get twice.1 k = Resource.get once.1 k.
Proof.
  intros Hplain _ _ Hr once twice.
  destruct (deserialize_plain r h json Hplain Hr) as [Hret Hget]. fold once in Hret, Hget.
  assert (¬ has_method once.1 "prop") as Hr'.
  { unfold has_method. rewrite Hget.
    destruct (obj_find (own_props h json) "prop") as [v|] eqn:Hv; simpl; [|done].
    destruct Hplain as (_ & _ & Hprop). by apply Hprop, obj_find_elem. }
  destruct (deserialize_plain once.1 h json Hplain Hr') as [Hret' Hget'].
  fold twice in Hret', Hget'.
  split; [done|]. split; [done|]. intros k. rewrite Hget', Hget.
  by destruct (obj_find (own_props h json) k).
Qed.

(** X22.  A resource just created from a type whose defaults give no id is
    new, and saving it, when it is [tidy] and passes validation, the type
    has a [resourceUrl] and declares an id field and [resourceProperties]
    that are [data_name]s, and what it serializes to has a JSON text, sends
    a POST to the base URL of the type with that text as its body. *)
Theorem created_resource_is_posted `{JSON} (c : Resource.class) (w : world)
    (props : list string) (u : string) :
  Resource.prototype c !! Resource.resourceIdField c = None →
  data_name (Resource.resourceIdField c) = true →
  Resource.resourceUrl c = Some u →
  Resource.resourceProperties c = Some props →
  data_names props →
  tidy (Resource.create c) →
  let r := Resource.create c in
  passes_validation r (store w) →
  Resource.isNew r (store w) = true ∧
  ∃ body h',
    Resource.serialize r (store w) = Normal (body, h') ∧
    ∀ text, JSON_stringify h' body = Normal text →
      ∃ p, Resource.saveResource r w
           = Normal (Resource.Pending, {| store := h'; sent := sent w ++ outgoing r p |}) ∧
           type p = "POST" ∧
           url p = VStr u ∧
           data p = VStr text.
Proof.
  intros Hid _ Hurl Hprops _ _ r Hpass.
  assert (∀ h, Resource.isNew r h = true) as Hnew.
  { intros h. unfold Resource.isNew, Resource._resourceId, Resource.get. simpl.
    by rewrite Hid. }
  split; [apply Hnew|].
  pose proof (serialize_spec r (store w) props Hprops) as Hser.
  eexists _, _. split; [exact Hser|]. intros text Htext.
  pose proof (saveResource_spec r w _ _ Hpass Hser eq_refl) as Hsave.
  rewrite Htext, Hnew in Hsave. eexists. split; [exact Hsave|].
  split; [done|]. split; [|done]. simpl.
  unfold Resource._resourceUrl.
  match goal with |- context [isEmpty ?h0 (Resource._resourceId r)] =>
    change (isEmpty h0 (Resource._resourceId r)) with (Resource.isNew r h0) end.
  rewrite Hnew. simpl. by rewrite Hurl.
Qed.

(** X23.  An object with a property of its own called [hasOwnProperty]
    that is no function cannot be deserialized: [deserialize] raises a
    [TypeError] once it has opened the batch of changes, which it does not
    close, and assigns nothing; [load] and the promises of [findResource]
    and [saveResource] fail with that [TypeError]. *)
Theorem shadowed_hasOwnProperty_raises `{JSON} (r : Resource.t)
    (ctl : ResourceController.t) (h : heap) (json v : value) :
  obj_find (own_props h json) "hasOwnProperty" = Some v →
  typeof v ≠ "function" →
  (Resource.deserialize r h json).2 = Some TypeError ∧
  Resource.fields (Resource.deserialize r h json).1 = Resource.fields r ∧
  Resource.changes (Resource.deserialize r h json).1
  = Resource.changes r ++ [BeginPropertyChanges] ∧
  ResourceController.load ctl h json = Throw TypeError ∧
  Resource.findResource_settle r h (Success json) = (Rejected TypeError, h) ∧
  (truthy json = true →
   Resource.saveResource_settle r h (Success json) = (Rejected TypeError, h)).
Proof.
  intros Hf Hv.
  pose proof (deserialize_raises r h json v Hf Hv) as Hr.
  rewrite Hr. split; [done|]. split; [done|]. split; [done|]. split; [|split].
  - unfold ResourceController.load, Resource.returned.
    by rewrite (deserialize_raises _ h json v Hf Hv).
  - unfold Resource.findResource_settle, Resource.findResource_then.
    unfold Ember.ajaxPromise_settle, and_then, Resource.returned. by rewrite Hr.
  - intros Hj. unfold Resource.saveResource_settle, Resource.saveResource_then.
    unfold Ember.ajaxPromise_settle, and_then, Resource.returned. by rewrite Hj, Hr.
Qed.

(** ** The further properties at work on the examples *)



Lemma body_stringified_only_for_put_and_post_witness :
  ((∀ text, JSON_stringify (JSON := Sample.host) Sample.ada_store (VRef 1%nat)
            = Normal text →
      ∃ q, complete (H := Sample.host) Sample.ada
             (Resource.descriptor "POST" (VRef 1%nat)) Sample.ada_store = Normal q ∧
           data q = VStr text) ∧
   (∀ e, JSON_stringify (JSON := Sample.host) Sample.ada_store (VRef 1%nat) = Throw e →
      complete (H := Sample.host) Sample.ada
        (Resource.descriptor "POST" (VRef 1%nat)) Sample.ada_store = Throw e ∧
      ∀ w, store w = Sample.ada_store →
           _resourceRequest (H := Sample.host) Sample.ada
             (Resource.descriptor "POST" (VRef 1%nat)) w = Throw e)) ∧
  ∃ q, complete (H := Sample.host) Sample.ada
         (Resource.descriptor "GET" (VRef 1%nat)) Sample.ada_store = Normal q ∧
       data q = VRef 1%nat.
Proof.
  split.
  - apply (proj1 (body_stringified_only_for_put_and_post (H := Sample.host) Sample.ada
                    (Resource.descriptor "POST" (VRef 1%nat)) Sample.ada_store)).
    + reflexivity.
    + right. reflexivity.
    + reflexivity.
  - apply (proj2 (body_stringified_only_for_put_and_post (H := Sample.host) Sample.ada
                    (Resource.descriptor "GET" (VRef 1%nat)) Sample.ada_store)).
    right. left. split; discriminate.
Defined.

Lemma descriptor_url_overrides_witness :
  url (addressed Sample.ada7
         {| type := "GET"; url := VStr "/contacts/search"; data := VUndefined;
            contentType := VUndefined; dataType := VUndefined |} Sample.ada_store)
  = VStr "/contacts/search" ∧
  url (addressed Sample.ada7 (Resource.descriptor "GET" VUndefined) Sample.ada_store)
  = VStr "/contacts/7".
Proof.
  split.
  - apply (proj1 (descriptor_url_overrides (H := Sample.host) Sample.ada7
                    {| type := "GET"; url := VStr "/contacts/search"; data := VUndefined;
                       contentType := VUndefined; dataType := VUndefined |}
                    Sample.ada_store)).
    reflexivity.
  - refine (eq_trans (proj1 (proj2 (descriptor_url_overrides (H := Sample.host) Sample.ada7
                                      (Resource.descriptor "GET" VUndefined)
                                      Sample.ada_store))
                        eq_refl) _).
    vm_compute. reflexivity.
Defined.

Lemma json_body_that_is_no_object_witness :
  Ember.ajaxPromise_settle (H := Sample.host) Sample.unprocessable_store (Failure null_body)
  = (Rejected TypeError, Sample.unprocessable_store).
Proof.
  apply (proj1 (json_body_that_is_no_object (H := Sample.host)
                  Sample.unprocessable_store Sample.unprocessable_store null_body
                  "Content-Type: application/json" VNull
                  eq_refl eq_refl eq_refl eq_refl)).
  reflexivity.
Defined.

Lemma status_written_on_error_object_witness :
  ∃ h', Ember.ajaxPromise_settle (H := Sample.host) conflict_store (Failure conflict)
        = (Rejected (VRef 0%nat), h') ∧
        member h' (VRef 0%nat) "status" = VNum 409 ∧
        (∀ k, k ≠ "status" →
              member h' (VRef 0%nat) k = member conflict_store (VRef 0%nat) k) ∧
        (∀ l', l' ≠ 0%nat → h' !! l' = conflict_store !! l').
Proof.
  apply (proj1 (status_written_on_error_object (H := Sample.host) conflict_store conflict)
           0%nat [("status", VStr "conflict"); ("message", VStr "taken")]).
  - reflexivity.
  - reflexivity.
Defined.

Lemma serialize_holds_declared_properties_only_witness :
  ∃ ret inner h',
    Resource.serialize Sample.ada7 Sample.ada_store = Normal (ret, h') ∧
    (∀ l c, Sample.ada_store !! l = Some c → h' !! l = Some c) ∧
    own_props h' ret = [("contact", inner)] ∧
    NoDup (own_props h' inner).*1 ∧
    (∀ k, k ∈ (own_props h' inner).*1 ↔ k ∈ ["first_name"; "tags"]) ∧
    (∀ k, member h' inner k
          = if decide (k ∈ ["first_name"; "tags"]) then Resource.get Sample.ada7 k
            else VUndefined).
Proof.
  apply (serialize_holds_declared_properties_only Sample.ada7 Sample.ada_store
           ["first_name"; "tags"]).
  reflexivity.
Defined.

Lemma undeclared_properties_raise_witness :
  Resource.serialize (Resource.create ReadOnly) Sample.ada_store = Throw TypeError ∧
  Resource.copy (Resource.create ReadOnly) Sample.ada_store = Throw TypeError ∧
  (∀ source, Resource.duplicateProperties (Resource.create ReadOnly) source None
               Sample.ada_store = Throw TypeError) ∧
  (passes_validation (Resource.create ReadOnly) (store Sample.empty_world) →
   Resource.saveResource (H := Sample.host) (Resource.create ReadOnly) Sample.empty_world
   = Throw TypeError).
Proof.
  apply (undeclared_properties_raise (H := Sample.host) (Resource.create ReadOnly)
           Sample.ada_store Sample.empty_world).
  reflexivity.
Defined.

Lemma deserialize_assigns_keys_and_keeps_rest_witness :
  (Resource.deserialize (Resource.create Sample.Contact) Sample.list_store (VRef 2%nat)).2
  = None ∧
  let r' := (Resource.deserialize (Resource.create Sample.Contact) Sample.list_store
               (VRef 2%nat)).1 in
  (∀ k v, (k, v) ∈ own_props Sample.list_store (VRef 2%nat) → Resource.get r' k = v) ∧
  (∀ k, data_name k = true → k ∉ (own_props Sample.list_store (VRef 2%nat)).*1 →
        Resource.get r' k = Resource.get (Resource.create Sample.Contact) k) ∧
  Resource.constructor r' = Sample.Contact ∧
  Resource.isDestroyed r' = false.
Proof.
  exact (deserialize_assigns_keys_and_keeps_rest (Resource.create Sample.Contact)
           Sample.list_store (VRef 2%nat)
           bob_is_plain new_contact_is_tidy eq_refl contact_has_no_prop).
Defined.

Lemma deserialize_batches_changes_witness :
  (Resource.deserialize (Resource.create Sample.Contact) Sample.list_store (VRef 2%nat)).2
  = None ∧
  Resource.changes (Resource.deserialize (Resource.create Sample.Contact)
                      Sample.list_store (VRef 2%nat)).1
  = [BeginPropertyChanges; PropertySet "first_name" (VStr "Bob"); EndPropertyChanges].
Proof.
  exact (deserialize_batches_changes (Resource.create Sample.Contact)
           Sample.list_store (VRef 2%nat) bob_is_plain new_contact_is_tidy eq_refl
           contact_has_no_prop).
Defined.

Lemma deserialize_of_no_object_witness :
  (Resource.deserialize Sample.ada Sample.ada_store VNull).2 = None ∧
  Resource.fields (Resource.deserialize Sample.ada Sample.ada_store VNull).1
  = Resource.fields Sample.ada ∧
  Resource.changes (Resource.deserialize Sample.ada Sample.ada_store VNull).1
  = [BeginPropertyChanges; EndPropertyChanges].
Proof.
  exact (deserialize_of_no_object Sample.ada Sample.ada_store VNull (or_introl eq_refl)).
Defined.

Lemma deserialize_twice_is_once_witness :
  let once := Resource.deserialize (Resource.create Sample.Contact)
                Sample.list_store (VRef 2%nat) in
  let twice := Resource.deserialize once.1 Sample.list_store (VRef 2%nat) in
  once.2 = None ∧ twice.2 = None ∧
  ∀ k, Resource.get twice.1 k = Resource.get once.1 k.
Proof.
  exact (deserialize_twice_is_once (Resource.create Sample.Contact)
           Sample.list_store (VRef 2%nat) bob_is_plain new_contact_is_tidy eq_refl
           contact_has_no_prop).
Defined.

(** The response [{id: 7, first_name: "Ada"}] to the save of a new contact. *)
Lemma saved_contact_is_plain :
  plain_object (Sample.ada_store ++ [CObj [("id", VNum 7); ("first_name", VStr "Ada")]])
    (VRef 2%nat).
Proof.
  split; [|split].
  - repeat constructor.
  - apply NoDup_cons. split.
    + intros Hin. apply list_elem_of_singleton in Hin. discriminate Hin.
    + apply NoDup_singleton.
  - intros v Hv. apply elem_of_cons in Hv as [Hv|Hv]; [discriminate Hv|].
    apply list_elem_of_singleton in Hv. discriminate Hv.
Qed.

Lemma seven_is_an_id (h : heap) : ¬ unset_or_empty h (VNum 7).
Proof.
  intros [Hid|[Hid|[Hid|[(l & named & Hid & _)|(l & props & Hid & _)]]]];
    discriminate Hid.
Qed.

Lemma saved_resource_is_no_longer_new_witness :
  ∃ r', Resource.saveResource_settle (H := Sample.host) Sample.ada
          (Sample.ada_store ++ [CObj [("id", VNum 7); ("first_name", VStr "Ada")]])
          (Success (VRef 2%nat))
        = (Resolved r',
           Sample.ada_store ++ [CObj [("id", VNum 7); ("first_name", VStr "Ada")]]) ∧
        Resource.isNew r'
          (Sample.ada_store ++ [CObj [("id", VNum 7); ("first_name", VStr "Ada")]])
        = false.
Proof.
  destruct (saved_resource_is_no_longer_new (H := Sample.host) Sample.ada
              (Sample.ada_store ++ [CObj [("id", VNum 7); ("first_name", VStr "Ada")]])
              2%nat [("id", VNum 7); ("first_name", VStr "Ada")] (VNum 7)
              ["first_name"; "tags"]
              eq_refl saved_contact_is_plain ada_is_tidy eq_refl ada_has_no_prop
              (list_elem_of_here _ _) I (seven_is_an_id _) eq_refl contact_names)
    as (r' & Hsettle & Hnew & _).
  exists r'. split; [exact Hsettle | exact Hnew].
Defined.

Lemma duplicateProperties_of_a_list_witness :
  ∃ this' new,
    Resource.duplicateProperties (Resource.create Sample.Contact) Sample.ada7
      (Some ["tags"]) Sample.ada_store = Normal (this', Sample.ada_store ++ new) ∧
    Resource.constructor this' = Sample.Contact ∧
    (∀ p, p ∈ ["tags"] →
       duplicates Sample.ada_store (Sample.ada_store ++ new)
         (Resource.get Sample.ada7 p) (Resource.get this' p)) ∧
    (∀ p, data_name p = true → p ∉ ["tags"] →
       Resource.get this' p = Resource.get (Resource.create Sample.Contact) p).
Proof.
  apply (duplicateProperties_of_a_list (Resource.create Sample.Contact) Sample.ada7
           Sample.ada_store ["tags"]).
  - repeat constructor.
  - exact new_contact_is_tidy.
  - exact ada7_is_tidy.
  - reflexivity.
  - intros p Hp. apply list_elem_of_singleton in Hp as ->. reflexivity.
Defined.

Lemma number_or_text_id_is_not_new_witness :
  Resource.isNew (Sample.with_field Sample.ada "id" (VNum 0)) Sample.ada_store = false ∧
  Resource._resourceUrl (Sample.with_field Sample.ada "id" (VNum 0)) Sample.ada_store
  = VStr "/contacts/0".
Proof.
  apply (proj1 (number_or_text_id_is_not_new
                  (Sample.with_field Sample.ada "id" (VNum 0)) Sample.ada_store
                  (with_field_tidy Sample.ada "id" (VNum 0) ada_is_tidy eq_refl))
           0 eq_refl).
  unfold safe_integer. simpl. lia.
Defined.

Lemma loadAll_appends_witness :
  let fresh json :=
    (Resource.deserialize (Resource.create Sample.Contact) Sample.list_store json).1 in
  (∃ ctl', ResourceController.loadAll Sample.contacts Sample.list_store (VRef 4%nat)
           = Normal ctl' ∧
           ResourceController.content ctl'
           = Some ([Sample.ada7] ++ map fresh [VRef 2%nat; VRef 3%nat]) ∧
           ResourceController.resourceType ctl' = Sample.Contact) ∧
  (∀ json, plain_object Sample.list_store json →
     (∃ ctl', ResourceController.load Sample.contacts Sample.list_store json
              = Normal ctl' ∧
              ResourceController.content ctl' = Some ([Sample.ada7] ++ [fresh json])) ∧
     ∀ k v, (k, v) ∈ own_props Sample.list_store json → Resource.get (fresh json) k = v).
Proof.
  exact (loadAll_appends Sample.contacts Sample.list_store 4%nat
           [VRef 2%nat; VRef 3%nat] [] [Sample.ada7] eq_refl eq_refl
           new_contact_is_tidy contact_has_no_prop listed_contacts_are_plain).
Defined.


Lemma created_resource_is_posted_witness :
  Resource.isNew (Resource.create Sample.Contact) (store Sample.empty_world) = true ∧
  ∃ body h',
    Resource.serialize (Resource.create Sample.Contact) (store Sample.empty_world)
    = Normal (body, h') ∧
    ∀ text, JSON_stringify (JSON := Sample.host) h' body = Normal text →
      ∃ p, Resource.saveResource (H := Sample.host) (Resource.create Sample.Contact)
             Sample.empty_world
           = Normal (Resource.Pending,
                     {| store := h';
                        sent := sent Sample.empty_world
                                ++ outgoing (Resource.create Sample.Contact) p |}) ∧
           type p = "POST" ∧
           url p = VStr "/contacts" ∧
           data p = VStr text.
Proof.
  exact (created_resource_is_posted (H := Sample.host) Sample.Contact Sample.empty_world
           ["first_name"; "tags"] "/contacts" eq_refl eq_refl eq_refl eq_refl
           contact_names new_contact_is_tidy I).
Defined.

Lemma shadowed_hasOwnProperty_raises_witness :
  (Resource.deserialize Sample.ada shadowing_store (VRef 0%nat)).2 = Some TypeError ∧
  Resource.fields (Resource.deserialize Sample.ada shadowing_store (VRef 0%nat)).1
  = Resource.fields Sample.ada ∧
  Resource.changes (Resource.deserialize Sample.ada shadowing_store (VRef 0%nat)).1
  = Resource.changes Sample.ada ++ [BeginPropertyChanges] ∧
  ResourceController.load Sample.contacts shadowing_store (VRef 0%nat) = Throw TypeError ∧
  Resource.findResource_settle (H := Sample.host) Sample.ada shadowing_store
    (Success (VRef 0%nat)) = (Rejected TypeError, shadowing_store) ∧
  (truthy (VRef 0%nat) = true →
   Resource.saveResource_settle (H := Sample.host) Sample.ada shadowing_store
     (Success (VRef 0%nat)) = (Rejected TypeError, shadowing_store)).
Proof.
  apply (shadowed_hasOwnProperty_raises (H := Sample.host) Sample.ada Sample.contacts
           shadowing_store (VRef 0%nat) (VNum 1)).
  - reflexivity.
  - discriminate.
Defined.

Lemma copy_drops_undeclared_properties_witness :
  ∃ c h', Resource.copy (Sample.with_field Sample.ada7 "nickname" (VStr "Countess"))
            Sample.ada_store = Normal (c, h') ∧
          Resource.get c "nickname" = VUndefined ∧
          Resource.get c "fullName" = VFun "fullName".
Proof.
  eexists _, _. split; [reflexivity|]. split.
  - refine (eq_trans (copy_drops_undeclared_properties
                        (Sample.with_field Sample.ada7 "nickname" (VStr "Countess"))
                        _ Sample.ada_store _ ["first_name"; "tags"]
                        eq_refl eq_refl "nickname" _ _) _).
    + intros Hin. apply elem_of_cons in Hin as [Hin|Hin]; [discriminate Hin|].
      apply list_elem_of_singleton in Hin. discriminate Hin.
    + discriminate.
    + reflexivity.
  - reflexivity.
Defined.

Lemma controller_url_precedence_witness :
  ResourceController._resourceUrl mixed_contacts Sample.ada_store = VStr "/contacts".
Proof.
  apply (proj1 (proj2 (proj2 (controller_url_precedence mixed_contacts Sample.ada_store)
                         eq_refl) eq_refl)
           [ {| properties := Some {["resourceUrl" := VStr "/people"]} |} ]
           {| properties := Some {["resourceUrl" := VStr "/contacts"]} |}
           [ {| properties := None |} ]).
  - reflexivity.
  - exists {["resourceUrl" := VStr "/contacts"]}.
    split; [reflexivity|]. split; [reflexivity|discriminate].
  - constructor; [|constructor].
    intros u (props & Hprops & _). discriminate Hprops.
Defined.

Lemma findAll_on_a_body_that_is_no_list_witness :
  ResourceController.loadAll Sample.contacts Sample.list_store VNull = Throw TypeError ∧
  ResourceController.findAll_settle (H := Sample.host) Sample.contacts Sample.list_store
    (Success VNull) = (Rejected TypeError, Sample.list_store).
Proof.
  exact (proj1 (findAll_on_a_body_that_is_no_list (H := Sample.host) Sample.contacts
                  Sample.list_store VNull) (or_introl eq_refl)).
Defined.

